(** * Eidos RCS Modbus client: register codec and command sequencer

    A shallow embedding of [src/client/rcs_modbus_client.py] (class
    [RCSModbusClient]) and of the properties stated about it.

    - Python values are an inductive type [pyval]; the YAML document, the
      configuration fields and the arguments of the commands are all dynamic,
      as in the source, where the dataclass [RCSConfig] is never validated.
    - Exceptions are a type [exn]; a computation returns [Ok] or [Raised].
    - Every external effect (a call on the Modbus transport, [time.sleep],
      [logger.info], [input]) is appended to a trace of [event]s; what the
      outside answers is given by a [World], a deterministic test double that
      sees the trace so far and may raise.
    - Floats are [SpecFloat.spec_float]; [struct.pack] of a float is the
      IEEE-754 rounding to binary32 of the Standard Library. *)

From Stdlib Require Import ZArith Lia List String Ascii Bool.
From Stdlib Require Import Floats.SpecFloat.
From stdpp Require Import base option gmap strings list pretty.

#[local] Set Warnings "-register-all".
#[local] Open Scope Z_scope.

(* ===================================================================== *)
(** * Part I. The embedding                                               *)
(* ===================================================================== *)

(** ** Python values *)

(** The values [yaml.safe_load] produces for a JSON-like document, which are
    also the values the client passes around.  Mappings have string keys.
    A float is carried as a [spec_float] denoting its value (sign, mantissa,
    exponent); nothing below depends on the mantissa being normalised to the
    53 bits of a binary64. *)
Inductive pyval :=
| PyNone
| PyBool (b : bool)
| PyInt (n : Z)
| PyFloat (f : spec_float)
| PyStr (s : string)
| PyList (l : list pyval)
| PyDict (d : gmap string pyval).

(** The pieces of an f-string: literal text, [{v}], [{v:.Nf}], the text
    [str(obj)] of a library object, and [{e}] for a caught exception.
    The exceptions are those the client raises or lets through. *)
Inductive fragment :=
| FLit (s : string)
| FVal (v : pyval)
| FFixed (digits : nat) (v : pyval)
| FObj (text : string)
| FExn (e : exn)
with exn :=
| KeyError (key : pyval)
| IndexError
| TypeError
| ValueError (msg : list fragment)
| OverflowError
| StructError
| UnboundLocalError (name : string)
| ConnectionError (msg : list fragment)
| EOFError
| KeyboardInterrupt
| OSError (detail : string)
| YAMLError (detail : string)
| ModbusException (detail : string).

Definition fstring := list fragment.

Inductive outcome (A : Type) :=
| Ok (a : A)
| Raised (e : exn).
Arguments Ok {A} a.
Arguments Raised {A} e.

(** The class of an exception, as [type(e).__name__] names it. *)
Definition class_name (e : exn) : string :=
  match e with
  | KeyError _ => "KeyError"
  | IndexError => "IndexError"
  | TypeError => "TypeError"
  | ValueError _ => "ValueError"
  | OverflowError => "OverflowError"
  | StructError => "error"
  | UnboundLocalError _ => "UnboundLocalError"
  | ConnectionError _ => "ConnectionError"
  | EOFError => "EOFError"
  | KeyboardInterrupt => "KeyboardInterrupt"
  | OSError _ => "OSError"
  | YAMLError _ => "YAMLError"
  | ModbusException _ => "ModbusException"
  end.

(** [bool(v)], as used by [yaml.safe_load(f) or {}]. *)
Definition py_truthy (v : pyval) : bool :=
  match v with
  | PyNone => false
  | PyBool b => b
  | PyInt n => negb (n =? 0)
  | PyFloat (S754_zero _) => false
  | PyFloat _ => true
  | PyStr s => negb (String.eqb s EmptyString)
  | PyList l => match l with [] => false | _ => true end
  | PyDict d => negb (bool_decide (d = ∅))
  end.

Definition py_or (a b : pyval) : pyval := if py_truthy a then a else b.

(** The characters of a string, each as a one-character string. *)
Fixpoint str_chars (s : string) : list pyval :=
  match s with
  | EmptyString => []
  | String c s' => PyStr (String c EmptyString) :: str_chars s'
  end.

(** [seq[i]] for a list; a negative index counts from the end. *)
Definition seq_index (l : list pyval) (i : Z) : outcome pyval :=
  let n := Z.of_nat (length l) in
  let j := if i <? 0 then i + n else i in
  if (0 <=? j) && (j <? n)
  then match l !! Z.to_nat j with Some v => Ok v | None => Raised IndexError end
  else Raised IndexError.

(** [v[k]]: subscription of a value by a value. *)
Definition py_getitem (v k : pyval) : outcome pyval :=
  match v with
  | PyDict d =>
      match k with
      | PyStr s => match d !! s with Some x => Ok x | None => Raised (KeyError k) end
      | PyList _ | PyDict _ => Raised TypeError
      | _ => Raised (KeyError k)
      end
  | PyList l =>
      match k with
      | PyInt i => seq_index l i
      | PyBool b => seq_index l (if b then 1 else 0)
      | _ => Raised TypeError
      end
  | PyStr s =>
      match k with
      | PyInt i => seq_index (str_chars s) i
      | PyBool b => seq_index (str_chars s) (if b then 1 else 0)
      | _ => Raised TypeError
      end
  | _ => Raised TypeError
  end.

(** [iter(v)]: the items a [for] loop or an unpacking sees.  A mapping gives
    its keys, here in the order of the map (Python: insertion order). *)
Definition py_iter (v : pyval) : outcome (list pyval) :=
  match v with
  | PyList l => Ok l
  | PyStr s => Ok (str_chars s)
  | PyDict d => Ok (PyStr <$> (map_to_list d).*1)
  | _ => Raised TypeError
  end.

(** [x, y, z = v]. *)
Definition py_unpack3 (v : pyval) : outcome (pyval * pyval * pyval) :=
  match py_iter v with
  | Raised e => Raised e
  | Ok [x; y; z] => Ok (x, y, z)
  | Ok (_ :: _ :: _ :: _ :: _) =>
      Raised (ValueError [FLit "too many values to unpack (expected 3)"])
  | Ok items =>
      Raised (ValueError [FLit "not enough values to unpack (expected 3, got ";
                          FVal (PyInt (Z.of_nat (length items))); FLit ")"])
  end.

(** ** IEEE-754 binary32 and [struct.pack] *)

Definition prec32 : Z := 24.
Definition emax32 : Z := 128.
Definition prec64 : Z := 53.
Definition emax64 : Z := 1024.

Definition is_infinity (x : spec_float) : bool :=
  match x with S754_infinity _ => true | _ => false end.

(** The C cast [(float)x]: round to nearest, ties to even. *)
Definition float_to_single (x : spec_float) : spec_float :=
  match x with
  | S754_finite s m e => binary_round prec32 emax32 s m e
  | _ => x
  end.

(** [float(n)] for an integer [n], rounded to binary64; an infinite result
    stands for the OverflowError of [PyLong_AsDouble]. *)
Definition int_to_double (n : Z) : spec_float :=
  binary_normalize prec64 emax64 n 0 false.

Definition sign_bit (s : bool) : Z := if s then 2 ^ 31 else 0.

(** The 32-bit pattern of a binary32 number: sign, biased exponent, fraction. *)
Definition bits_of_single (y : spec_float) : Z :=
  match y with
  | S754_zero s => sign_bit s
  | S754_infinity s => sign_bit s + 255 * 2 ^ 23
  | S754_nan => 255 * 2 ^ 23 + 2 ^ 22
  | S754_finite s m e =>
      if Z.pos m <? 2 ^ 23
      then sign_bit s + Z.pos m
      else sign_bit s + (e + 150) * 2 ^ 23 + (Z.pos m - 2 ^ 23)
  end.

(** [PyFloat_Pack4]: the bits of [(float)x], or OverflowError when a finite
    double is too large for a float. *)
Definition PyFloat_Pack4 (x : spec_float) : outcome Z :=
  let y := float_to_single x in
  if is_infinity y && negb (is_infinity x)
  then Raised OverflowError
  else Ok (bits_of_single y).

(** The argument conversion of the struct format [f]: a float, or anything
    with [__float__] (an int, a bool); every failure of the conversion is
    reported as [struct.error]. *)
Definition struct_float_arg (v : pyval) : outcome spec_float :=
  match v with
  | PyFloat f => Ok f
  | PyInt n =>
      let d := int_to_double n in
      if is_infinity d then Raised StructError else Ok d
  | PyBool b => Ok (int_to_double (if b then 1 else 0))
  | _ => Raised StructError
  end.

(** Big-endian bytes of a 32-bit pattern: [struct.pack("!f", value)]. *)
Definition be32_bytes (bits : Z) : list Z :=
  [bits / 2 ^ 24 mod 256; bits / 2 ^ 16 mod 256; bits / 2 ^ 8 mod 256; bits mod 256].

(** [struct.pack] reports the OverflowError of an int argument (a bool is
    an int) as [struct.error]; that of a float is raised as it is. *)
Definition pack_net_f (v : pyval) : outcome (list Z) :=
  match struct_float_arg v with
  | Raised e => Raised e
  | Ok x =>
      match PyFloat_Pack4 x with
      | Raised e =>
          Raised (match v with PyInt _ | PyBool _ => StructError | _ => e end)
      | Ok bits => Ok (be32_bytes bits)
      end
  end.

(** ** [pymodbus.payload.BinaryPayloadBuilder] *)

Inductive Endian := BIG | LITTLE.

(** [struct.pack(order + "H", word)] and [struct.unpack(order + "H", bytes)[0]]. *)
Definition pack_H (order : Endian) (w : Z) : list Z :=
  match order with
  | BIG => [w / 256; w mod 256]
  | LITTLE => [w mod 256; w / 256]
  end.

Definition unpack_H (order : Endian) (bytes : Z * Z) : Z :=
  match order with
  | BIG => fst bytes * 256 + snd bytes
  | LITTLE => snd bytes * 256 + fst bytes
  end.

(** A byte string cut into two-byte pieces, an odd tail padded with zero:
    [BinaryPayloadBuilder.build], also [struct.unpack("!nH", value)]. *)
Fixpoint byte_pairs (bs : list Z) : list (Z * Z) :=
  match bs with
  | a :: b :: rest => (a, b) :: byte_pairs rest
  | [a] => [(a, 0)]
  | [] => []
  end.

Record BinaryPayloadBuilder := {
  bpb_payload : list (list Z);
  bpb_byteorder : Endian;
  bpb_wordorder : Endian;
  bpb_repack : bool }.

(** [_pack_words]: pack in network order, read the 16-bit words, reverse
    them for little-endian word order, pack each word in the byte order. *)
Definition _pack_words (b : BinaryPayloadBuilder) (net : list Z) : list Z :=
  let words := unpack_H BIG <$> byte_pairs net in
  let words := match bpb_wordorder b with LITTLE => rev words | BIG => words end in
  concat (pack_H (bpb_byteorder b) <$> words).

Definition add_32bit_float (b : BinaryPayloadBuilder) (v : pyval)
  : outcome BinaryPayloadBuilder :=
  match pack_net_f v with
  | Raised e => Raised e
  | Ok net =>
      Ok {| bpb_payload := bpb_payload b ++ [_pack_words b net];
            bpb_byteorder := bpb_byteorder b;
            bpb_wordorder := bpb_wordorder b;
            bpb_repack := bpb_repack b |}
  end.

Definition to_registers (b : BinaryPayloadBuilder) : list Z :=
  let order := if bpb_repack b then bpb_byteorder b else BIG in
  unpack_H order <$> byte_pairs (concat (bpb_payload b)).

(** The first three lines of [_write_float]: the register words of a value. *)
Definition encodeFloat32 (value : pyval) : outcome (list Z) :=
  let builder := {| bpb_payload := []; bpb_byteorder := BIG;
                    bpb_wordorder := LITTLE; bpb_repack := false |} in
  match add_32bit_float builder value with
  | Raised e => Raised e
  | Ok builder => Ok (to_registers builder)
  end.

(** Modelled from the spec: the reading of a 32-bit pattern as an IEEE-754
    single-precision number, which the source does not have (the client only
    writes floats): sign bit, eight exponent bits biased by 127, 23 fraction
    bits. *)
Definition single_of_bits (bits : Z) : spec_float :=
  let s := 2 ^ 31 <=? bits in
  let ex := bits / 2 ^ 23 mod 256 in
  let frac := bits mod 2 ^ 23 in
  if ex =? 0 then
    match frac with
    | Z.pos m => S754_finite s m (-149)
    | _ => S754_zero s
    end
  else if ex =? 255 then
    if frac =? 0 then S754_infinity s else S754_nan
  else
    match frac + 2 ^ 23 with
    | Z.pos m => S754_finite s m (ex - 150)
    | _ => S754_nan
    end.

(** Modelled from the spec: [decodeFloat32], which the source does not have.
    The first register holds the low half of the float and the second the
    high half, each word internally big-endian. *)
Definition decodeFloat32 (registers : list Z) : option pyval :=
  match registers with
  | [word0; word1] =>
      let bytes := pack_H BIG word1 ++ pack_H BIG word0 in
      match byte_pairs bytes with
      | [hi; lo] => Some (PyFloat (single_of_bits (unpack_H BIG hi * 2 ^ 16 + unpack_H BIG lo)))
      | _ => None
      end
  | _ => None
  end.

(** [abs(a - b) < 0.001] on Python floats; [one_thousandth] is the binary64
    nearest to 0.001. *)
Definition one_thousandth : spec_float := S754_finite false 4611686018427388 (-62).

Definition within_one_thousandth (a b : pyval) : bool :=
  match a, b with
  | PyFloat x, PyFloat y =>
      SFltb (SFabs (SFsub prec64 emax64 x y)) one_thousandth
  | _, _ => false
  end.

(** Writing a value and reading the registers back. *)
Definition round_trip (value : pyval) : option pyval :=
  match encodeFloat32 value with
  | Ok registers => decodeFloat32 registers
  | Raised _ => None
  end.

(** [str(v)] where the text is a plain rendering: None, booleans, integers
    in decimal, strings.  The text of floats and containers is not modelled. *)
Definition py_str (v : pyval) : option string :=
  match v with
  | PyNone => Some "None"%string
  | PyBool b => Some (if b then "True" else "False")%string
  | PyInt n => Some (pretty n)
  | PyStr s => Some s
  | _ => None
  end.

(** The text of an f-string whose pieces are literals, plain values and
    object texts. *)
Fixpoint render (msg : fstring) : option string :=
  match msg with
  | [] => Some EmptyString
  | FLit s :: rest => String.append s <$> render rest
  | FObj s :: rest => String.append s <$> render rest
  | FVal v :: rest =>
      match py_str v with
      | Some s => String.append s <$> render rest
      | None => None
      end
  | _ :: _ => None
  end.

(** [{v:.Nf}]: defined for floats, integers that fit a double, and booleans;
    evaluating the field raises for anything else. *)
Definition format_f (digits : nat) (v : pyval) : outcome fragment :=
  match v with
  | PyFloat _ | PyBool _ => Ok (FFixed digits v)
  | PyInt n =>
      if is_infinity (int_to_double n) then Raised OverflowError
      else Ok (FFixed digits v)
  | PyStr _ => Raised (ValueError [FLit "Unknown format code 'f' for object of type 'str'"])
  | _ => Raised TypeError
  end.

(** [bin(n)]. *)
Fixpoint bin_digits (p : positive) (acc : string) : string :=
  match p with
  | xH => String "1" acc
  | xO p' => bin_digits p' (String "0" acc)
  | xI p' => bin_digits p' (String "1" acc)
  end.

Definition bin (n : Z) : string :=
  match n with
  | Z0 => "0b0"
  | Z.pos p => String.append "0b" (bin_digits p EmptyString)
  | Z.neg p => String.append "-0b" (bin_digits p EmptyString)
  end.

(** The positional reading of a string of binary digits, most significant
    digit first, and of a binary literal with its [0b] prefix and sign. *)
Fixpoint binary_value (acc : Z) (s : string) : option Z :=
  match s with
  | EmptyString => Some acc
  | String c rest =>
      if Ascii.eqb c "0" then binary_value (2 * acc) rest
      else if Ascii.eqb c "1" then binary_value (2 * acc + 1) rest
      else None
  end.

Definition binary_literal_value (s : string) : option Z :=
  match s with
  | String "0" (String "b" (String c ds)) => binary_value 0 (String c ds)
  | String "-" (String "0" (String "b" (String c ds))) =>
      Z.opp <$> binary_value 0 (String c ds)
  | _ => None
  end.

(** ** The outside world *)

(** The arguments [ModbusTcpClient] is constructed with. *)
Record ModbusTcpClient := {
  tcp_host : pyval;
  tcp_port : pyval;
  tcp_timeout : pyval;
  tcp_retries : Z;
  tcp_retry_on_empty : bool }.

(** What [read_holding_registers] returns: an object with [isError()],
    the attribute [registers] and a text [str(result)].  A Modbus exception
    response answers [isError()] with True. *)
Record response := {
  isError : bool;
  resp_registers : list Z;
  resp_text : string }.

Definition ErrorResponse (text : string) : response :=
  {| isError := true; resp_registers := []; resp_text := text |}.

Definition RegistersResponse (regs : list Z) : response :=
  {| isError := false; resp_registers := regs;
     resp_text := "ReadHoldingRegistersResponse" |}.

Inductive level := INFO | ERROR.

(** One entry per call that leaves the client. *)
Inductive event :=
| EvOpen (path : string)
| EvConnect (c : ModbusTcpClient)
| EvWriteRegister (address value unit_id : pyval)
| EvWriteRegisters (address : pyval) (values : list Z) (unit_id : pyval)
| EvReadHoldingRegisters (address : pyval) (count : Z) (unit_id : pyval)
| EvClose
| EvSleep (seconds : pyval)
| EvLog (lvl : level) (msg : fstring)
| EvInput (prompt : string)
| EvYOLO (weights : string)
| EvDestroyAllWindows.

(** The calls on the Modbus transport, and among them those that read or
    write registers. *)
Definition is_transport (ev : event) : bool :=
  match ev with
  | EvConnect _ | EvWriteRegister _ _ _ | EvWriteRegisters _ _ _
  | EvReadHoldingRegisters _ _ _ | EvClose => true
  | _ => false
  end.

Definition is_register_op (ev : event) : bool :=
  match ev with
  | EvWriteRegister _ _ _ | EvWriteRegisters _ _ _
  | EvReadHoldingRegisters _ _ _ => true
  | _ => false
  end.

Definition is_write_register (ev : event) : bool :=
  match ev with EvWriteRegister _ _ _ => true | _ => false end.

(** Logging and operator prompts. *)
Definition is_console (ev : event) : bool :=
  match ev with EvLog _ _ | EvInput _ => true | _ => false end.

Definition transport_calls (tr : list event) : list event := List.filter is_transport tr.
Definition register_ops (tr : list event) : list event := List.filter is_register_op tr.
Definition register_writes (tr : list event) : list event := List.filter is_write_register tr.

(** The register and value of the last [write_register] call of a trace. *)
Definition last_register_write (tr : list event) : option (pyval * pyval) :=
  match last (register_writes tr) with
  | Some (EvWriteRegister a v _) => Some (a, v)
  | _ => None
  end.

(** A test double for everything outside the client.  Each answer may depend
    on the events so far, and may be an exception. *)
Record World := {
  on_open_yaml : list event -> string -> outcome pyval;
  on_connect : list event -> ModbusTcpClient -> outcome bool;
  on_write_register : list event -> pyval -> pyval -> pyval -> outcome unit;
  on_write_registers : list event -> pyval -> list Z -> pyval -> outcome unit;
  on_read_holding_registers : list event -> pyval -> Z -> pyval -> outcome response;
  on_close : list event -> outcome unit;
  on_sleep : list event -> pyval -> outcome unit;
  on_input : list event -> string -> outcome string;
  on_yolo : list event -> string -> outcome unit }.

(** ** Computations *)

(** A computation sees the events so far and returns its outcome with the
    events it added. *)
Definition M (A : Type) : Type := list event -> outcome A * list event.

#[global] Instance M_ret : MRet M := λ A a _, (Ok a, []).

#[global] Instance M_bind : MBind M := λ A B f m h,
  match m h with
  | (Ok a, out) => let '(r, out') := f a (h ++ out) in (r, out ++ out')
  | (Raised e, out) => (Raised e, out)
  end.

Definition raise {A} (e : exn) : M A := λ _, (Raised e, []).

Definition lift {A} (o : outcome A) : M A := λ _, (o, []).

Definition perform {A} (ev : event) (answer : list event -> outcome A) : M A :=
  λ h, (answer h, [ev]).

Definition is_ok {A} (o : outcome A) : bool :=
  match o with Ok _ => true | Raised _ => false end.

Definition result {A} (r : outcome A * list event) : outcome A := fst r.
Definition events {A} (r : outcome A * list event) : list event := snd r.

(** A computation that only logs and prompts. *)
Definition console_only {A} (m : M A) : Prop :=
  forall h, Forall (fun ev => is_console ev = true) (events (m h)).

(** [except Exception] does not catch KeyboardInterrupt. *)
Definition is_Exception (e : exn) : bool :=
  match e with KeyboardInterrupt => false | _ => true end.

Definition try_except {A} (body : M A) (handler : exn -> M A) : M A := λ h,
  match body h with
  | (Raised e, out) =>
      if is_Exception e
      then let '(r, out') := handler e (h ++ out) in (r, out ++ out')
      else (Raised e, out)
  | done => done
  end.

Definition try_finally {A} (body : M A) (final : M unit) : M A := λ h,
  let '(r, out) := body h in
  match final (h ++ out) with
  | (Ok _, out') => (r, out ++ out')
  | (Raised e, out') => (Raised e, out ++ out')
  end.

(** ** The client *)

Record RCSConfig := {
  host : pyval;
  port : pyval;
  timeout : pyval;
  unit_id : pyval;
  registers : pyval;
  calibration : pyval }.

Record RCSModbusClient := {
  config : RCSConfig;
  client : ModbusTcpClient }.

(** The literal [0.1] of [time.sleep(0.1)], as a binary64. *)
Definition settle_delay : pyval := PyFloat (S754_finite false 7205759403792794 (-56)).

Section Client.

Variable w : World.

Definition info (msg : fstring) : M unit := perform (EvLog INFO msg) (λ _, Ok tt).
Definition error (msg : fstring) : M unit := perform (EvLog ERROR msg) (λ _, Ok tt).
Definition sleep (seconds : pyval) : M unit :=
  perform (EvSleep seconds) (λ h, on_sleep w h seconds).
Definition input (prompt : string) : M string :=
  perform (EvInput prompt) (λ h, on_input w h prompt).

Definition _load_config (path : string) : M RCSConfig :=
  loaded ← perform (EvOpen path) (λ h, on_open_yaml w h path);
  let data := py_or loaded (PyDict ∅) in
  rcs ← lift (py_getitem data (PyStr "rcs"));
  host ← lift (py_getitem rcs (PyStr "host"));
  rcs ← lift (py_getitem data (PyStr "rcs"));
  port ← lift (py_getitem rcs (PyStr "port"));
  rcs ← lift (py_getitem data (PyStr "rcs"));
  timeout ← lift (py_getitem rcs (PyStr "timeout"));
  rcs ← lift (py_getitem data (PyStr "rcs"));
  unit_id ← lift (py_getitem rcs (PyStr "unit_id"));
  registers ← lift (py_getitem data (PyStr "registers"));
  calibration ← lift (py_getitem data (PyStr "calibration"));
  mret {| host := host; port := port; timeout := timeout; unit_id := unit_id;
          registers := registers; calibration := calibration |}.

Definition _connect (self : RCSModbusClient) : M unit :=
  connected ← perform (EvConnect (client self)) (λ h, on_connect w h (client self));
  if negb connected
  then raise (ConnectionError [FLit "Failed to connect to RCS: ";
                               FVal (host (config self)); FLit ":";
                               FVal (port (config self))])
  else info [FLit "Connected to RCS via Modbus TCP"].

Definition __init__ (config_path : string) : M RCSModbusClient :=
  config ← _load_config config_path;
  let self := {| config := config;
                 client := {| tcp_host := host config;
                              tcp_port := port config;
                              tcp_timeout := timeout config;
                              tcp_retries := 3;
                              tcp_retry_on_empty := true |} |} in
  _connect self;;
  mret self.

Definition _write_float (self : RCSModbusClient) (address value : pyval) : M unit :=
  payload ← lift (encodeFloat32 value);
  perform (EvWriteRegisters address payload (unit_id (config self)))
          (λ h, on_write_registers w h address payload (unit_id (config self))).

Definition _write_int (self : RCSModbusClient) (address value : pyval) : M unit :=
  perform (EvWriteRegister address value (unit_id (config self)))
          (λ h, on_write_register w h address value (unit_id (config self))).

Definition _read_int (self : RCSModbusClient) (address : pyval) : M Z :=
  result ← perform (EvReadHoldingRegisters address 1 (unit_id (config self)))
                   (λ h, on_read_holding_registers w h address 1 (unit_id (config self)));
  if isError result
  then raise (ValueError [FLit "Error reading register "; FVal address;
                          FLit ": "; FObj (resp_text result)])
  else match resp_registers result with
       | r :: _ => mret r
       | [] => raise IndexError
       end.

Definition register (self : RCSModbusClient) (name : string) : M pyval :=
  lift (py_getitem (registers (config self)) (PyStr name)).

Definition reset_errors (self : RCSModbusClient) : M unit :=
  a ← register self "reset_errors";
  _write_int self a (PyInt 1);;
  sleep settle_delay;;
  a ← register self "reset_errors";
  _write_int self a (PyInt 0);;
  info [FLit "Errors have been reset"].

Definition enable_drives (self : RCSModbusClient) : M unit :=
  a ← register self "enable_drives";
  _write_int self a (PyInt 1);;
  info [FLit "Drives enabled"].

Definition start_program (self : RCSModbusClient) (program_id : pyval) : M unit :=
  a ← register self "program_number";
  _write_int self a program_id;;
  a ← register self "start_program";
  _write_int self a (PyInt 1);;
  sleep settle_delay;;
  a ← register self "start_program";
  _write_int self a (PyInt 0);;
  info [FLit "Started program #"; FVal program_id].

Definition move_to_xyz (self : RCSModbusClient) (x y z : pyval) : M unit :=
  a ← register self "target_x";
  _write_float self a x;;
  a ← register self "target_y";
  _write_float self a y;;
  a ← register self "target_z";
  _write_float self a z;;
  start_program self (PyInt 1);;
  fx ← lift (format_f 2 x);
  fy ← lift (format_f 2 y);
  fz ← lift (format_f 2 z);
  info [FLit "Command: move to ("; fx; FLit ", "; fy; FLit ", "; fz; FLit ")"].

Definition go_home (self : RCSModbusClient) : M unit :=
  pos ← lift (py_getitem (calibration (config self)) (PyStr "home_position"));
  x ← lift (py_getitem pos (PyInt 0));
  y ← lift (py_getitem pos (PyInt 1));
  z ← lift (py_getitem pos (PyInt 2));
  move_to_xyz self x y z;;
  info [FLit "Returning to home position"].

(** The body of the [for i, point in enumerate(...)] loop of
    [calibrate_base], from index [i] on. *)
Fixpoint calibrate_points (i : Z) (points : list pyval) : M unit :=
  match points with
  | [] => mret tt
  | point :: rest =>
      xyz ← lift (py_unpack3 point);
      let '(x, y, z) := xyz in
      fx ← lift (format_f 3 x);
      fy ← lift (format_f 3 y);
      fz ← lift (format_f 3 z);
      info [FLit "Move TCP to cone "; FVal (PyInt (i + 1)); FLit " at (";
            fx; FLit ", "; fy; FLit ", "; fz; FLit ") and press Enter"];;
      input "Press Enter when in position...";;
      calibrate_points (i + 1) rest
  end.

Definition calibrate_base (self : RCSModbusClient) : M unit :=
  info [FLit "Starting Base frame calibration (3-point method)..."];;
  cones ← lift (py_getitem (calibration (config self)) (PyStr "cone_positions"));
  points ← lift (py_iter cones);
  calibrate_points 0 points;;
  info [FLit "Calibration points recorded. Complete calibration in RCS HMI."].

Definition get_status (self : RCSModbusClient) : M pyval :=
  a ← register self "status_word";
  status ← _read_int self a;
  mret (PyDict {[ "status_word"%string := PyInt status;
                  "binary"%string := PyStr (bin status) ]}).

Definition close (self : RCSModbusClient) : M unit :=
  perform EvClose (λ h, on_close w h);;
  info [FLit "Modbus connection closed"].

(** ** [main.py] *)

(** Reading the local variable [rcs], which is bound only when the
    constructor returned. *)
Definition local_rcs (rcs : option RCSModbusClient) : M RCSModbusClient :=
  match rcs with
  | Some self => mret self
  | None => raise (UnboundLocalError "rcs")
  end.

Definition main : M unit :=
  rcs ← try_except
           (self ← __init__ "config/config.yaml"; mret (Some self))
           (λ e, error [FLit "ModBus client error: "; FExn e];; mret None);
  try_finally
    (try_except
       (self ← local_rcs rcs; reset_errors self;;
        self ← local_rcs rcs; enable_drives self;;
        self ← local_rcs rcs; go_home self;;
        sleep (PyInt 2);;
        perform (EvYOLO "yolov8n.pt") (λ h, on_yolo w h "yolov8n.pt"))
       (λ e, error [FLit "Runtime error: "; FExn e]))
    (self ← local_rcs rcs; close self;;
     perform EvDestroyAllWindows (λ _, Ok tt)).

End Client.

(** ** Sample configurations and test doubles *)

Definition sample_registers : gmap string pyval :=
  {[ "reset_errors"%string := PyInt 100;
     "enable_drives"%string := PyInt 101;
     "program_number"%string := PyInt 107;
     "start_program"%string := PyInt 108;
     "target_x"%string := PyInt 200;
     "target_y"%string := PyInt 202;
     "target_z"%string := PyInt 204;
     "status_word"%string := PyInt 300 ]}.

(** Home at (300, -1.5, 400); two cones. *)
Definition sample_calibration : gmap string pyval :=
  {[ "home_position"%string :=
       PyList [PyInt 300; PyFloat (S754_finite true 3 (-1)); PyInt 400];
     "cone_positions"%string :=
       PyList [PyList [PyInt 100; PyInt 0; PyInt 50];
               PyList [PyInt 0; PyInt 100; PyInt 50]] ]}.

Definition sample_rcs : gmap string pyval :=
  {[ "host"%string := PyStr "192.168.0.10";
     "port"%string := PyInt 502;
     "timeout"%string := PyInt 3;
     "unit_id"%string := PyInt 1 ]}.

Definition document (regs : gmap string pyval) : pyval :=
  PyDict {[ "rcs"%string := PyDict sample_rcs;
            "registers"%string := PyDict regs;
            "calibration"%string := PyDict sample_calibration ]}.

Definition client_of (regs : gmap string pyval) : RCSModbusClient :=
  {| config := {| host := PyStr "192.168.0.10"; port := PyInt 502;
                  timeout := PyInt 3; unit_id := PyInt 1;
                  registers := PyDict regs;
                  calibration := PyDict sample_calibration |};
     client := {| tcp_host := PyStr "192.168.0.10"; tcp_port := PyInt 502;
                  tcp_timeout := PyInt 3; tcp_retries := 3;
                  tcp_retry_on_empty := true |} |}.

Definition sample_client : RCSModbusClient := client_of sample_registers.

(** The sample register map with the status_word entry left out. *)
Definition registers_without_status_word : gmap string pyval :=
  delete "status_word"%string sample_registers.

(** A world in which the configuration file holds [doc], every call
    succeeds and every read returns the status word 255. *)
Definition calm_world (doc : pyval) : World :=
  {| on_open_yaml := λ _ _, Ok doc;
     on_connect := λ _ _, Ok true;
     on_write_register := λ _ _ _ _, Ok tt;
     on_write_registers := λ _ _ _ _, Ok tt;
     on_read_holding_registers := λ _ _ _ _, Ok (RegistersResponse [255]);
     on_close := λ _, Ok tt;
     on_sleep := λ _ _, Ok tt;
     on_input := λ _ _, Ok EmptyString;
     on_yolo := λ _ _, Ok tt |}.

(** The transport raises on every write of 1 to a trigger register
    (100 or 108), after the call has been recorded. *)
Definition world_failing_after_high : World :=
  {| on_open_yaml := λ _ _, Ok (document sample_registers);
     on_connect := λ _ _, Ok true;
     on_write_register := λ _ address value _,
       match address, value with
       | PyInt 100, PyInt 1 | PyInt 108, PyInt 1 =>
           Raised (ModbusException "No response received")
       | _, _ => Ok tt
       end;
     on_write_registers := λ _ _ _ _, Ok tt;
     on_read_holding_registers := λ _ _ _ _, Ok (RegistersResponse [255]);
     on_close := λ _, Ok tt;
     on_sleep := λ _ _, Ok tt;
     on_input := λ _ _, Ok EmptyString;
     on_yolo := λ _ _, Ok tt |}.

(** Every write succeeds and the settle delay is interrupted. *)
Definition world_interrupted_delay : World :=
  {| on_open_yaml := λ _ _, Ok (document sample_registers);
     on_connect := λ _ _, Ok true;
     on_write_register := λ _ _ _ _, Ok tt;
     on_write_registers := λ _ _ _ _, Ok tt;
     on_read_holding_registers := λ _ _ _ _, Ok (RegistersResponse [255]);
     on_close := λ _, Ok tt;
     on_sleep := λ _ _, Raised KeyboardInterrupt;
     on_input := λ _ _, Ok EmptyString;
     on_yolo := λ _ _, Ok tt |}.

(** The controller cannot be reached: [connect()] returns False, every
    register call raises, and closing the unopened transport does nothing. *)
Definition world_unreachable : World :=
  {| on_open_yaml := λ _ _, Ok (document sample_registers);
     on_connect := λ _ _, Ok false;
     on_write_register := λ _ _ _ _, Raised (ModbusException "Not connected");
     on_write_registers := λ _ _ _ _, Raised (ModbusException "Not connected");
     on_read_holding_registers := λ _ _ _ _, Raised (ModbusException "Not connected");
     on_close := λ _, Ok tt;
     on_sleep := λ _ _, Ok tt;
     on_input := λ _ _, Ok EmptyString;
     on_yolo := λ _ _, Ok tt |}.

(** Every read is answered with a Modbus exception response. *)
Definition world_read_exception : World :=
  {| on_open_yaml := λ _ _, Ok (document sample_registers);
     on_connect := λ _ _, Ok true;
     on_write_register := λ _ _ _ _, Ok tt;
     on_write_registers := λ _ _ _ _, Ok tt;
     on_read_holding_registers := λ _ _ _ _,
       Ok (ErrorResponse "Exception Response(131, 3, IllegalAddress)");
     on_close := λ _, Ok tt;
     on_sleep := λ _ _, Ok tt;
     on_input := λ _ _, Ok EmptyString;
     on_yolo := λ _ _, Ok tt |}.

(** The connection is up and every read raises in the transport. *)
Definition world_silent_reads : World :=
  {| on_open_yaml := λ _ _, Ok (document sample_registers);
     on_connect := λ _ _, Ok true;
     on_write_register := λ _ _ _ _, Ok tt;
     on_write_registers := λ _ _ _ _, Ok tt;
     on_read_holding_registers := λ _ _ _ _,
       Raised (ModbusException "No response received");
     on_close := λ _, Ok tt;
     on_sleep := λ _ _, Ok tt;
     on_input := λ _ _, Ok EmptyString;
     on_yolo := λ _ _, Ok tt |}.

(** ** Further definitions *)

(** A computation all of whose events satisfy [p]. *)
Definition emits_only {A} (p : event -> bool) (m : M A) : Prop :=
  forall h, Forall (fun ev => p ev = true) (events (m h)).

Definition is_close (ev : event) : bool :=
  match ev with EvClose => true | _ => false end.

Definition is_input (ev : event) : bool :=
  match ev with EvInput _ => true | _ => false end.

Definition not_close (ev : event) : bool := negb (is_close ev).

(** The exception the world answers the call [ev] with, after [h]. *)
Definition raised_by (w : World) (h : list event) (ev : event) : option exn :=
  let raised {A} (o : outcome A) :=
    match o with Raised e => Some e | Ok _ => None end in
  match ev with
  | EvOpen path => raised (on_open_yaml w h path)
  | EvConnect c => raised (on_connect w h c)
  | EvWriteRegister a v u => raised (on_write_register w h a v u)
  | EvWriteRegisters a p u => raised (on_write_registers w h a p u)
  | EvReadHoldingRegisters a n u => raised (on_read_holding_registers w h a n u)
  | EvClose => raised (on_close w h)
  | EvSleep s => raised (on_sleep w h s)
  | EvInput p => raised (on_input w h p)
  | EvYOLO f => raised (on_yolo w h f)
  | EvLog _ _ | EvDestroyAllWindows => None
  end.

(** The planned events [evs], made one after the other after [h], up to
    and including the first one the world answers with an exception. *)
Fixpoint until_failure (w : World) (h evs : list event) : list event :=
  match evs with
  | [] => []
  | ev :: rest =>
      ev :: match raised_by w h ev with
            | None => until_failure w (h ++ [ev]) rest
            | Some _ => []
            end
  end.



(** A cone position as the YAML document has it, and the events of the
    calibration loop over well-formed positions, the first numbered [i + 1]. *)
Definition cone (xyz : pyval * pyval * pyval) : pyval :=
  let '(x, y, z) := xyz in PyList [x; y; z].

Definition formattable (xyz : pyval * pyval * pyval) : Prop :=
  let '(x, y, z) := xyz in
  format_f 3 x = Ok (FFixed 3 x) /\ format_f 3 y = Ok (FFixed 3 y) /\
  format_f 3 z = Ok (FFixed 3 z).

Fixpoint cone_prompts (i : Z) (points : list (pyval * pyval * pyval)) : list event :=
  match points with
  | [] => []
  | (x, y, z) :: rest =>
      EvLog INFO [FLit "Move TCP to cone "; FVal (PyInt (i + 1)); FLit " at (";
                  FFixed 3 x; FLit ", "; FFixed 3 y; FLit ", "; FFixed 3 z;
                  FLit ") and press Enter"]
      :: EvInput "Press Enter when in position..."
      :: cone_prompts (i + 1) rest
  end.

(** A client whose calibration section holds the given cone positions. *)
Definition client_with_cones (cones : pyval) : RCSModbusClient :=
  {| config := {| host := PyStr "192.168.0.10"; port := PyInt 502;
                  timeout := PyInt 3; unit_id := PyInt 1;
                  registers := PyDict sample_registers;
                  calibration := PyDict {[ "cone_positions"%string := cones ]} |};
     client := {| tcp_host := PyStr "192.168.0.10"; tcp_port := PyInt 502;
                  tcp_timeout := PyInt 3; tcp_retries := 3;
                  tcp_retry_on_empty := true |} |}.

(** A client whose home position is the given value. *)
Definition client_with_home (home : pyval) : RCSModbusClient :=
  {| config := {| host := PyStr "192.168.0.10"; port := PyInt 502;
                  timeout := PyInt 3; unit_id := PyInt 1;
                  registers := PyDict sample_registers;
                  calibration := PyDict {[ "home_position"%string := home ]} |};
     client := {| tcp_host := PyStr "192.168.0.10"; tcp_port := PyInt 502;
                  tcp_timeout := PyInt 3; tcp_retries := 3;
                  tcp_retry_on_empty := true |} |}.

(** Every read is answered without registers. *)
Definition world_empty_read : World :=
  {| on_open_yaml := λ _ _, Ok (document sample_registers);
     on_connect := λ _ _, Ok true;
     on_write_register := λ _ _ _ _, Ok tt;
     on_write_registers := λ _ _ _ _, Ok tt;
     on_read_holding_registers := λ _ _ _ _, Ok (RegistersResponse []);
     on_close := λ _, Ok tt;
     on_sleep := λ _ _, Ok tt;
     on_input := λ _ _, Ok EmptyString;
     on_yolo := λ _ _, Ok tt |}.

(* ===================================================================== *)
(** * Part II. Properties                                                 *)
(* ===================================================================== *)

(** ** Running computations *)

Section Run.

Context {A B : Type}.

Lemma events_bind (m : M A) (f : A -> M B) (h : list event) :
  events ((m ≫= f) h) =
  events (m h) ++ match result (m h) with
                  | Ok a => events (f a (h ++ events (m h)))
                  | Raised _ => []
                  end.
Proof.
  unfold events, result, mbind, M_bind.
  destruct (m h) as [[a | e] out]; simpl; [| by rewrite app_nil_r].
  by destruct (f a (h ++ out)).
Qed.

Lemma result_bind (m : M A) (f : A -> M B) (h : list event) :
  result ((m ≫= f) h) =
  match result (m h) with
  | Ok a => result (f a (h ++ events (m h)))
  | Raised e => Raised e
  end.
Proof.
  unfold events, result, mbind, M_bind.
  destruct (m h) as [[a | e] out]; simpl; [| done].
  by destruct (f a (h ++ out)).
Qed.

Lemma events_lift_bind (o : outcome A) (f : A -> M B) (h : list event) :
  events ((lift o ≫= f) h) =
  match o with Ok a => events (f a h) | Raised _ => [] end.
Proof. rewrite events_bind. destruct o; simpl; [by rewrite app_nil_r | done]. Qed.

Lemma result_lift_bind (o : outcome A) (f : A -> M B) (h : list event) :
  result ((lift o ≫= f) h) =
  match o with Ok a => result (f a h) | Raised e => Raised e end.
Proof. rewrite result_bind. destruct o; simpl; [by rewrite app_nil_r | done]. Qed.

Lemma events_ret (a : A) (h : list event) : events (mret (M := M) a h) = [].
Proof. reflexivity. Qed.

Lemma result_ret (a : A) (h : list event) : result (mret (M := M) a h) = Ok a.
Proof. reflexivity. Qed.

Lemma events_perform_bind (ev : event) (answer : list event -> outcome A)
      (f : A -> M B) (h : list event) :
  events ((perform ev answer ≫= f) h) =
  ev :: match answer h with
        | Ok a => events (f a (h ++ [ev]))
        | Raised _ => []
        end.
Proof. rewrite events_bind. reflexivity. Qed.

Lemma result_perform_bind (ev : event) (answer : list event -> outcome A)
      (f : A -> M B) (h : list event) :
  result ((perform ev answer ≫= f) h) =
  match answer h with
  | Ok a => result (f a (h ++ [ev]))
  | Raised e => Raised e
  end.
Proof. rewrite result_bind. reflexivity. Qed.

Lemma events_perform (ev : event) (answer : list event -> outcome A) (h : list event) :
  events (perform ev answer h) = [ev].
Proof. reflexivity. Qed.

Lemma result_perform (ev : event) (answer : list event -> outcome A) (h : list event) :
  result (perform ev answer h) = answer h.
Proof. reflexivity. Qed.

Lemma run_bind_assoc {C : Type} (m : M A) (f : A -> M B) (g : B -> M C)
      (h : list event) :
  ((m ≫= f) ≫= g) h = (m ≫= (λ a, f a ≫= g)) h.
Proof.
  unfold mbind, M_bind.
  destruct (m h) as [[a | e] out]; [| done].
  destruct (f a (h ++ out)) as [[b | e] out']; [| done].
  rewrite <- (assoc_L (++)).
  destruct (g b (h ++ out ++ out')) as [r out'']. by rewrite (assoc_L (++)).
Qed.

Lemma run_eq (r : outcome A * list event) (o : outcome A) (evs : list event) :
  result r = o -> events r = evs -> r = (o, evs).
Proof. destruct r. simpl. congruence. Qed.

End Run.

Create Rewrite HintDb run.

#[local] Hint Rewrite @run_bind_assoc @events_ret @result_ret
  @events_lift_bind @result_lift_bind @events_perform_bind
  @result_perform_bind @events_perform @result_perform : run.

(** Unfold the commands down to [lift] and [perform], then run them step by
    step, using the equations at hand for the answers of the world. *)
Ltac unfold_client :=
  unfold reset_errors, enable_drives, start_program, close, get_status,
    _read_int, _write_int, _write_float, _connect, register, sleep, input,
    info, error in *.

Ltac run_with_hyps :=
  repeat (autorewrite with run;
          repeat match goal with
                 | H : ?x = _ |- context [match ?x with Ok _ => _ | Raised _ => _ end] =>
                     rewrite H
                 end).

Ltac run_cases :=
  run_with_hyps;
  repeat (match goal with
          | |- context [match ?x with Ok _ => _ | Raised _ => _ end] =>
              let E := fresh "E" in destruct x as [[] | ?] eqn:E
          end; run_with_hyps).

(** ** The float codec *)

Section Float32.

Lemma digits2_pos_bounds (m : positive) :
  2 ^ (Z.pos (digits2_pos m) - 1) <= Z.pos m < 2 ^ Z.pos (digits2_pos m).
Proof.
  induction m as [m IH | m IH |]; simpl digits2_pos.
  - rewrite Pos2Z.inj_succ.
    replace (Z.succ (Z.pos (digits2_pos m)) - 1) with (Z.succ (Z.pos (digits2_pos m) - 1)) by lia.
    rewrite !Z.pow_succ_r by lia. lia.
  - rewrite Pos2Z.inj_succ.
    replace (Z.succ (Z.pos (digits2_pos m)) - 1) with (Z.succ (Z.pos (digits2_pos m) - 1)) by lia.
    rewrite !Z.pow_succ_r by lia. lia.
  - simpl. lia.
Qed.

(** What [bounded] says for binary32: a subnormal with exponent -149, or a
    24-bit mantissa with exponent between -149 and 104. *)
Lemma bounded32_cases (m : positive) (e : Z) :
  bounded prec32 emax32 m e = true ->
  (Z.pos m < 2 ^ 23 /\ e = -149) \/
  (2 ^ 23 <= Z.pos m < 2 ^ 24 /\ -149 <= e <= 104).
Proof.
  unfold bounded, canonical_mantissa, fexp, emin, prec32, emax32.
  intros H. apply andb_prop in H as [Hc He].
  apply Z.eqb_eq in Hc. apply Z.leb_le in He.
  pose proof (digits2_pos_bounds m) as Hd.
  set (d := Z.pos (digits2_pos m)) in *.
  assert (Hd1 : 1 <= d) by (unfold d; lia).
  destruct (Z.le_gt_cases d 23) as [Hle | Hgt].
  - left. split; [| lia].
    apply Z.lt_le_trans with (2 ^ d); [lia |].
    apply Z.pow_le_mono_r; lia.
  - right. assert (d = 24) by lia.
    replace (d - 1) with 23 in Hd by lia. replace d with 24 in Hd by lia.
    lia.
Qed.

(** Rounding a number that already is a binary32 changes nothing. *)
Lemma binary_round_bounded32 (s : bool) (m : positive) (e : Z) :
  bounded prec32 emax32 m e = true ->
  binary_round prec32 emax32 s m e = S754_finite s m e.
Proof.
  intros H. unfold bounded in H. apply andb_prop in H as [Hc He].
  unfold canonical_mantissa in Hc. apply Z.eqb_eq in Hc.
  unfold binary_round, shl_align. rewrite Hc, Z.sub_diag.
  unfold binary_round_aux, shr_fexp. simpl Zdigits2. rewrite Hc, Z.sub_diag.
  simpl. rewrite Hc, Z.sub_diag. simpl. rewrite He. reflexivity.
Qed.

Lemma float_to_single_valid (v : spec_float) :
  valid_binary prec32 emax32 v = true -> float_to_single v = v.
Proof.
  destruct v as [s | s | | s m e]; simpl; try reflexivity.
  apply binary_round_bounded32.
Qed.

Ltac pow_consts :=
  change (2 ^ 31) with 2147483648 in *; change (2 ^ 32) with 4294967296 in *;
  change (2 ^ 24) with 16777216 in *; change (2 ^ 23) with 8388608 in *;
  change (2 ^ 22) with 4194304 in *; change (2 ^ 16) with 65536 in *;
  change (2 ^ 8) with 256 in *.

Ltac div_mod_lia := Z.div_mod_to_equations; lia.

Lemma bits_of_single_range (v : spec_float) :
  valid_binary prec32 emax32 v = true -> 0 <= bits_of_single v < 2 ^ 32.
Proof.
  destruct v as [s | s | | s m e]; simpl; intros H;
    try (destruct s; unfold sign_bit; pow_consts; lia).
  - pow_consts. lia.
  - apply bounded32_cases in H. pow_consts.
    destruct (Z.ltb_spec (Z.pos m) 8388608); destruct s; unfold sign_bit; pow_consts; lia.
Qed.

(** Reading the bit pattern of a binary32 number gives the number back. *)
Lemma single_of_bits_of_single (v : spec_float) :
  valid_binary prec32 emax32 v = true -> single_of_bits (bits_of_single v) = v.
Proof.
  destruct v as [s | s | | s m e]; intros H.
  - destruct s; reflexivity.
  - destruct s; reflexivity.
  - reflexivity.
  - simpl in H. apply bounded32_cases in H.
    unfold bits_of_single, single_of_bits. pow_consts.
    destruct (Z.ltb_spec (Z.pos m) 8388608) as [Hlt | Hge].
    + destruct H as [[_ He] | [Hm _]]; [subst e | lia].
      assert (Hs : (2147483648 <=? sign_bit s + Z.pos m) = s)
        by (destruct s; unfold sign_bit; pow_consts;
            [apply Z.leb_le | apply Z.leb_gt]; lia).
      assert (Hex : (sign_bit s + Z.pos m) / 8388608 mod 256 = 0)
        by (destruct s; unfold sign_bit; pow_consts; div_mod_lia).
      assert (Hfr : (sign_bit s + Z.pos m) mod 8388608 = Z.pos m)
        by (destruct s; unfold sign_bit; pow_consts; div_mod_lia).
      rewrite Hs, Hex, Hfr. reflexivity.
    + destruct H as [[Hm _] | [Hm He]]; [lia |].
      set (b := sign_bit s + (e + 150) * 8388608 + (Z.pos m - 8388608)).
      assert (Hs : (2147483648 <=? b) = s)
        by (subst b; destruct s; unfold sign_bit; pow_consts;
            [apply Z.leb_le | apply Z.leb_gt]; lia).
      assert (Hex : b / 8388608 mod 256 = e + 150)
        by (subst b; destruct s; unfold sign_bit; pow_consts; div_mod_lia).
      assert (Hfr : b mod 8388608 = Z.pos m - 8388608)
        by (subst b; destruct s; unfold sign_bit; pow_consts; div_mod_lia).
      rewrite Hs, Hex, Hfr.
      destruct (Z.eqb_spec (e + 150) 0); [lia |].
      destruct (Z.eqb_spec (e + 150) 255); [lia |].
      replace (Z.pos m - 8388608 + 8388608) with (Z.pos m) by lia.
      f_equal. lia.
Qed.

(** The register words of a 32-bit pattern: low half first, high half
    second. *)
Lemma registers_of_bits (bits : Z) :
  0 <= bits < 2 ^ 32 ->
  to_registers {| bpb_payload := [_pack_words
                     {| bpb_payload := []; bpb_byteorder := BIG;
                        bpb_wordorder := LITTLE; bpb_repack := false |}
                     (be32_bytes bits)];
                  bpb_byteorder := BIG; bpb_wordorder := LITTLE;
                  bpb_repack := false |}
  = [bits mod 2 ^ 16; bits / 2 ^ 16].
Proof.
  intros H. unfold to_registers, _pack_words, be32_bytes. cbn.
  pow_consts. f_equal; [| f_equal]; div_mod_lia.
Qed.

Lemma decode_words (bits : Z) :
  0 <= bits < 2 ^ 32 ->
  decodeFloat32 [bits mod 2 ^ 16; bits / 2 ^ 16] = Some (PyFloat (single_of_bits bits)).
Proof.
  intros H. unfold decodeFloat32. cbn. pow_consts.
  do 3 f_equal. div_mod_lia.
Qed.

(** C1. Every binary32 value [v] is written as two register words, the low
    half of its IEEE-754 bit pattern first and the high half second, and
    reading the two words back gives [v] again. *)
Theorem encodeFloat32_roundtrip (v : spec_float) :
  valid_binary prec32 emax32 v = true ->
  let bits := bits_of_single v in
  0 <= bits < 2 ^ 32 /\
  encodeFloat32 (PyFloat v) = Ok [bits mod 2 ^ 16; bits / 2 ^ 16] /\
  decodeFloat32 [bits mod 2 ^ 16; bits / 2 ^ 16] = Some (PyFloat v).
Proof.
  intros Hv bits.
  pose proof (bits_of_single_range v Hv) as Hr. fold bits in Hr.
  split; [exact Hr |]. split.
  - unfold encodeFloat32, add_32bit_float, pack_net_f, struct_float_arg, PyFloat_Pack4.
    rewrite (float_to_single_valid v Hv), andb_negb_r. fold bits.
    cbv beta iota. simpl bpb_payload. simpl bpb_byteorder.
    simpl bpb_wordorder. simpl bpb_repack. simpl app.
    f_equal. apply registers_of_bits, Hr.
  - rewrite (decode_words bits Hr). unfold bits.
    by rewrite (single_of_bits_of_single v Hv).
Qed.

Lemma encodeFloat32_roundtrip_witness :
  valid_binary prec32 emax32 (S754_finite true 12582912 (-23)) = true /\
  encodeFloat32 (PyFloat (S754_finite true 12582912 (-23))) = Ok [0; 49088] /\
  decodeFloat32 [0; 49088] = Some (PyFloat (S754_finite true 12582912 (-23))).
Proof.
  split; [reflexivity |].
  exact (proj2 (encodeFloat32_roundtrip (S754_finite true 12582912 (-23)) eq_refl)).
Defined.

(** Zero, negative zero, the infinities, the smallest subnormal and the
    largest finite binary32 all come back unchanged. *)
Example round_trip_special_values :
  Forall (fun v => round_trip (PyFloat v) = Some (PyFloat v))
    [S754_zero false; S754_zero true; S754_infinity false; S754_infinity true;
     S754_nan; S754_finite false 1 (-149); S754_finite true 16777215 104].
Proof. repeat constructor. Qed.

(** Doubles that are not binary32 values (1.001, -273.15, 0.001, 123.456)
    come back rounded to single precision, well within 0.001. *)
Example round_trip_fractions :
  Forall (fun x => exists y, round_trip (PyFloat x) = Some y /\
                             within_one_thousandth (PyFloat x) y = true)
    [S754_finite false 4508103226997866 (-52);
     S754_finite true 4805305618032230 (-44);
     S754_finite false 4611686018427388 (-62);
     S754_finite false 8687443681197687 (-46)].
Proof. repeat constructor; eexists; split; reflexivity. Qed.

(** A finite double beyond the binary32 range is refused by [struct.pack]. *)
Example encodeFloat32_overflow :
  encodeFloat32 (PyFloat (S754_finite false 1 200)) = Raised OverflowError.
Proof. reflexivity. Qed.

(** An int beyond the binary32 range is refused with [struct.error]. *)
Example encodeFloat32_int_overflow :
  encodeFloat32 (PyInt (2 ^ 200)) = Raised StructError.
Proof. vm_compute. reflexivity. Qed.

End Float32.

(** ** Trigger pulses *)

Section Pulses.

Variable w : World.
Variable self : RCSModbusClient.

Let u := unit_id (config self).

(** C3. With both registers configured, [start_program] first writes
    program_id to program_number.  Once that write has returned, and only
    then, it writes 1 to start_program; no call lies between the two.  The
    write of 0 to start_program follows when the write of 1 and the settle
    delay have returned.  The run returns normally exactly when all four
    calls have returned. *)
Theorem start_program_number_before_trigger (program_id : pyval) (h : list event)
    (pn sp : pyval) :
  py_getitem (registers (config self)) (PyStr "program_number") = Ok pn ->
  py_getitem (registers (config self)) (PyStr "start_program") = Ok sp ->
  let number := EvWriteRegister pn program_id u in
  let high := EvWriteRegister sp (PyInt 1) u in
  let low := EvWriteRegister sp (PyInt 0) u in
  let h1 := h ++ [number] in
  let h2 := h1 ++ [high] in
  let h3 := h2 ++ [EvSleep settle_delay] in
  let number_ok := is_ok (on_write_register w h pn program_id u) in
  let high_ok := is_ok (on_write_register w h1 sp (PyInt 1) u) in
  let delay_ok := is_ok (on_sleep w h2 settle_delay) in
  let low_ok := is_ok (on_write_register w h3 sp (PyInt 0) u) in
  transport_calls (events (start_program w self program_id h)) =
    number :: (if number_ok
               then high :: (if high_ok && delay_ok then [low] else [])
               else []) /\
  (result (start_program w self program_id h) = Ok tt <->
   number_ok && high_ok && delay_ok && low_ok = true).
Proof.
  intros Hpn Hsp number high low h1 h2 h3 number_ok high_ok delay_ok low_ok.
  subst u number high low h1 h2 h3 number_ok high_ok delay_ok low_ok.
  unfold_client. run_cases; simpl is_ok; simpl andb; cbv iota.
  all: split; [reflexivity | split; intros Hres; done].
Qed.

(** C2, as the code has it.  With the registers configured (and, for
    [start_program], the program number written), the trigger register is
    last written as 0 exactly when the write of 1 and the settle delay both
    return; when either raises, no further write is issued and the trigger
    is last written as 1.  A run that returns normally ends at 0. *)
Theorem pulse_released_iff_no_failure (program_id : pyval) (h : list event)
    (trig pn sp : pyval) :
  py_getitem (registers (config self)) (PyStr "reset_errors") = Ok trig ->
  py_getitem (registers (config self)) (PyStr "program_number") = Ok pn ->
  py_getitem (registers (config self)) (PyStr "start_program") = Ok sp ->
  on_write_register w h pn program_id u = Ok tt ->
  let high := EvWriteRegister trig (PyInt 1) u in
  let h' := h ++ [EvWriteRegister pn program_id u] in
  let high' := EvWriteRegister sp (PyInt 1) u in
  (last_register_write (events (reset_errors w self h)) =
     Some (trig, PyInt (if is_ok (on_write_register w h trig (PyInt 1) u)
                           && is_ok (on_sleep w (h ++ [high]) settle_delay)
                        then 0 else 1)) /\
   (result (reset_errors w self h) = Ok tt ->
      last_register_write (events (reset_errors w self h)) = Some (trig, PyInt 0))) /\
  (last_register_write (events (start_program w self program_id h)) =
     Some (sp, PyInt (if is_ok (on_write_register w h' sp (PyInt 1) u)
                         && is_ok (on_sleep w (h' ++ [high']) settle_delay)
                      then 0 else 1)) /\
   (result (start_program w self program_id h) = Ok tt ->
      last_register_write (events (start_program w self program_id h)) = Some (sp, PyInt 0))).
Proof.
  intros Htrig Hpn Hsp Hfirst high h' high'. subst u high h' high'.
  split; unfold_client; run_cases; simpl is_ok; simpl andb; cbv iota; by split.
Qed.

End Pulses.

Lemma pulse_released_iff_no_failure_witness :
  last_register_write (events (reset_errors (calm_world PyNone) sample_client [])) =
    Some (PyInt 100, PyInt 0) /\
  last_register_write (events (start_program (calm_world PyNone) sample_client (PyInt 7) [])) =
    Some (PyInt 108, PyInt 0).
Proof.
  pose proof (pulse_released_iff_no_failure (calm_world PyNone) sample_client
                (PyInt 7) [] (PyInt 100) (PyInt 107) (PyInt 108)
                eq_refl eq_refl eq_refl eq_refl) as [[H1 _] [H2 _]].
  split; [exact H1 | exact H2].
Defined.

(** C2, as stated, fails.  A transport that raises right after the write of
    1, or an interrupted settle delay, ends [reset_errors] and
    [start_program] with the trigger register last written as 1. *)
Lemma pulse_left_high_on_failure :
  reset_errors world_failing_after_high sample_client [] =
    (Raised (ModbusException "No response received"),
     [EvWriteRegister (PyInt 100) (PyInt 1) (PyInt 1)]) /\
  last_register_write (events (reset_errors world_failing_after_high sample_client [])) =
    Some (PyInt 100, PyInt 1) /\
  start_program world_failing_after_high sample_client (PyInt 7) [] =
    (Raised (ModbusException "No response received"),
     [EvWriteRegister (PyInt 107) (PyInt 7) (PyInt 1);
      EvWriteRegister (PyInt 108) (PyInt 1) (PyInt 1)]) /\
  last_register_write (events (start_program world_failing_after_high sample_client (PyInt 7) [])) =
    Some (PyInt 108, PyInt 1) /\
  reset_errors world_interrupted_delay sample_client [] =
    (Raised KeyboardInterrupt,
     [EvWriteRegister (PyInt 100) (PyInt 1) (PyInt 1); EvSleep settle_delay]) /\
  last_register_write (events (reset_errors world_interrupted_delay sample_client [])) =
    Some (PyInt 100, PyInt 1).
Proof. repeat split; reflexivity. Qed.


Lemma start_program_number_before_trigger_witness :
  transport_calls (events (start_program (calm_world PyNone) sample_client (PyInt 7) [])) =
    [EvWriteRegister (PyInt 107) (PyInt 7) (PyInt 1);
     EvWriteRegister (PyInt 108) (PyInt 1) (PyInt 1);
     EvWriteRegister (PyInt 108) (PyInt 0) (PyInt 1)] /\
  result (start_program (calm_world PyNone) sample_client (PyInt 7) []) = Ok tt.
Proof.
  destruct (start_program_number_before_trigger (calm_world PyNone) sample_client
              (PyInt 7) [] (PyInt 107) (PyInt 108) eq_refl eq_refl) as [Hcalls Hres].
  split; [exact Hcalls | exact (proj2 Hres eq_refl)].
Defined.

(** ** Moves *)

Section Moves.

Variable w : World.
Variable self : RCSModbusClient.

Let u := unit_id (config self).


Lemma getitem_triple (x y z : pyval) :
  py_getitem (PyList [x; y; z]) (PyInt 0) = Ok x /\
  py_getitem (PyList [x; y; z]) (PyInt 1) = Ok y /\
  py_getitem (PyList [x; y; z]) (PyInt 2) = Ok z.
Proof. by repeat split. Qed.

Lemma register_ops_app (a b : list event) :
  register_ops (a ++ b) = register_ops a ++ register_ops b.
Proof. apply List.filter_app. Qed.


(** C6. When home_position is a list of three coordinates, [go_home] makes
    the same calls on the transport, register operations included, as
    [move_to_xyz] with those coordinates, and ends the same way; the only
    event it adds is its own log line. *)
Theorem go_home_same_writes (x y z : pyval) (h : list event) :
  py_getitem (calibration (config self)) (PyStr "home_position") = Ok (PyList [x; y; z]) ->
  register_ops (events (go_home w self h)) =
    register_ops (events (move_to_xyz w self x y z h)) /\
  transport_calls (events (go_home w self h)) =
    transport_calls (events (move_to_xyz w self x y z h)) /\
  result (go_home w self h) = result (move_to_xyz w self x y z h).
Proof.
  intros Hpos. destruct (getitem_triple x y z) as (H0 & H1 & H2).
  unfold go_home.
  rewrite !events_lift_bind, !result_lift_bind, Hpos.
  rewrite !events_lift_bind, !result_lift_bind, H0.
  rewrite !events_lift_bind, !result_lift_bind, H1.
  rewrite !events_lift_bind, !result_lift_bind, H2.
  rewrite events_bind, result_bind.
  unfold register_ops, transport_calls. rewrite !List.filter_app.
  destruct (result (move_to_xyz w self x y z h)) as [[] | e]; simpl;
    by rewrite !app_nil_r.
Qed.

End Moves.


Lemma go_home_same_writes_witness :
  register_ops (events (go_home (calm_world PyNone) sample_client [])) =
    register_ops (events (move_to_xyz (calm_world PyNone) sample_client
       (PyInt 300) (PyFloat (S754_finite true 3 (-1))) (PyInt 400) [])).
Proof.
  exact (proj1 (go_home_same_writes (calm_world PyNone) sample_client
                  (PyInt 300) (PyFloat (S754_finite true 3 (-1))) (PyInt 400) []
                  eq_refl)).
Defined.

(** ** Reading the status word *)

Section Status.

Variable w : World.
Variable self : RCSModbusClient.

Let u := unit_id (config self).

(** The digits [bin] writes, read positionally, give the number back. *)
Lemma binary_value_bin_digits (p : positive) :
  exists c : Z, forall (acc : string) (k : Z),
    binary_value k (bin_digits p acc) = binary_value (k * c + Z.pos p) acc.
Proof.
  induction p as [p [c IH] | p [c IH] |].
  - exists (2 * c). intros acc k. simpl. rewrite IH. simpl.
    f_equal. rewrite Pos2Z.inj_xI. lia.
  - exists (2 * c). intros acc k. simpl. rewrite IH. simpl.
    f_equal. rewrite Pos2Z.inj_xO. lia.
  - exists 2. intros acc k. simpl. f_equal. lia.
Qed.

Lemma bin_digits_nonempty (p : positive) (acc : string) :
  exists c ds, bin_digits p acc = String c ds.
Proof.
  revert acc. induction p as [p IH | p IH |]; intros acc; simpl; eauto.
Qed.

Lemma binary_literal_value_bin (n : Z) : binary_literal_value (bin n) = Some n.
Proof.
  destruct n as [| p | p]; [reflexivity | |].
  - destruct (binary_value_bin_digits p) as [c Hc].
    destruct (bin_digits_nonempty p EmptyString) as (d & ds & Hd).
    unfold bin. simpl String.append. rewrite Hd.
    change (binary_value 0 (String d ds) = Some (Z.pos p)).
    rewrite <- Hd, Hc. reflexivity.
  - destruct (binary_value_bin_digits p) as [c Hc].
    destruct (bin_digits_nonempty p EmptyString) as (d & ds & Hd).
    unfold bin. simpl String.append. rewrite Hd.
    change (Z.opp <$> binary_value 0 (String d ds) = Some (Z.neg p)).
    rewrite <- Hd, Hc. reflexivity.
Qed.

Lemma append_empty (s : string) : String.append s EmptyString = s.
Proof.
  induction s as [| c s IH]; [done |].
  change (String c (String.append s EmptyString) = String c s). by rewrite IH.
Qed.

(** C7, as the code has it.  A read answered by a Modbus exception
    response makes [_read_int] raise, after that one read, Python's
    built-in ValueError with the message
    "Error reading register {address}: {result}", which names the register
    address and carries the text of the response.  An exception raised by
    the read itself is not translated: it reaches the caller as it is. *)
Theorem read_int_exception_response (address : pyval) (h : list event) :
  (forall resp : response,
     on_read_holding_registers w h address 1 u = Ok resp ->
     isError resp = true ->
     let msg := [FLit "Error reading register "; FVal address; FLit ": ";
                 FObj (resp_text resp)] in
     _read_int w self address h =
       (Raised (ValueError msg), [EvReadHoldingRegisters address 1 u]) /\
     (forall a : Z, address = PyInt a ->
        render msg = Some ("Error reading register " +:+ pretty a +:+ ": "
                           +:+ resp_text resp))) /\
  (forall e : exn,
     on_read_holding_registers w h address 1 u = Raised e ->
     _read_int w self address h = (Raised e, [EvReadHoldingRegisters address 1 u])).
Proof.
  subst u. split.
  - intros resp Hread Herr msg. subst msg. split.
    + apply run_eq; unfold_client; run_with_hyps; rewrite Herr; reflexivity.
    + intros a ->. unfold render, py_str, fmap, option_fmap, option_map.
      by rewrite append_empty.
  - intros e Hread. apply run_eq; unfold_client; run_with_hyps; reflexivity.
Qed.

(** C8. When the read returns the value [v], [get_status] returns the
    mapping with [v] itself under status_word (an integer, printed in
    decimal) and [bin(v)] under binary; and [bin(v)], read as a binary
    literal, is [v]. *)
Theorem get_status_binary (h : list event) (a : pyval) (resp : response)
    (v : Z) (rest : list Z) :
  py_getitem (registers (config self)) (PyStr "status_word") = Ok a ->
  on_read_holding_registers w h a 1 u = Ok resp ->
  isError resp = false ->
  resp_registers resp = v :: rest ->
  get_status w self h =
    (Ok (PyDict {[ "status_word"%string := PyInt v;
                   "binary"%string := PyStr (bin v) ]}),
     [EvReadHoldingRegisters a 1 u]) /\
  py_str (PyInt v) = Some (pretty v) /\
  binary_literal_value (bin v) = Some v.
Proof.
  intros Ha Hread Herr Hregs. subst u.
  split; [| split; [reflexivity | apply binary_literal_value_bin]].
  apply run_eq; unfold_client; run_with_hyps; rewrite Herr, Hregs;
    autorewrite with run; reflexivity.
Qed.

End Status.

Lemma read_int_exception_response_witness :
  _read_int world_read_exception sample_client (PyInt 300) [] =
    (Raised (ValueError [FLit "Error reading register "; FVal (PyInt 300); FLit ": ";
                         FObj "Exception Response(131, 3, IllegalAddress)"]),
     [EvReadHoldingRegisters (PyInt 300) 1 (PyInt 1)]) /\
  render [FLit "Error reading register "; FVal (PyInt 300); FLit ": ";
          FObj "Exception Response(131, 3, IllegalAddress)"] =
    Some "Error reading register 300: Exception Response(131, 3, IllegalAddress)"%string /\
  _read_int world_silent_reads sample_client (PyInt 300) [] =
    (Raised (ModbusException "No response received"),
     [EvReadHoldingRegisters (PyInt 300) 1 (PyInt 1)]).
Proof.
  destruct (proj1 (read_int_exception_response world_read_exception sample_client
                     (PyInt 300) [])
                  (ErrorResponse "Exception Response(131, 3, IllegalAddress)")
                  eq_refl eq_refl) as [Hrun Hmsg].
  split; [exact Hrun | split; [exact (Hmsg 300 eq_refl) |]].
  exact (proj2 (read_int_exception_response world_silent_reads sample_client
                  (PyInt 300) [])
               (ModbusException "No response received") eq_refl).
Defined.

(** C7, as stated, fails.  The failure of a read answered by an exception
    response has no class of its own: it is a ValueError, the class of the
    error [calibrate_base] ends with on a cone position of two coordinates,
    an error that involves no register and no call on the transport. *)
Lemma read_failure_is_a_plain_ValueError :
  result (_read_int world_read_exception sample_client (PyInt 300) []) =
    Raised (ValueError [FLit "Error reading register "; FVal (PyInt 300); FLit ": ";
                        FObj "Exception Response(131, 3, IllegalAddress)"]) /\
  result (calibrate_base world_read_exception
            (client_with_cones (PyList [PyList [PyInt 0; PyInt 100]])) []) =
    Raised (ValueError [FLit "not enough values to unpack (expected 3, got ";
                        FVal (PyInt 2); FLit ")"]) /\
  transport_calls
    (events (calibrate_base world_read_exception
               (client_with_cones (PyList [PyList [PyInt 0; PyInt 100]])) [])) = [] /\
  (forall e1 e2,
     result (_read_int world_read_exception sample_client (PyInt 300) []) = Raised e1 ->
     result (calibrate_base world_read_exception
               (client_with_cones (PyList [PyList [PyInt 0; PyInt 100]])) []) = Raised e2 ->
     class_name e1 = class_name e2).
Proof.
  repeat split; try reflexivity.
  intros e1 e2 H1 H2. injection H1 as <-. injection H2 as <-. reflexivity.
Qed.

Lemma get_status_binary_witness :
  get_status (calm_world PyNone) sample_client [] =
    (Ok (PyDict {[ "status_word"%string := PyInt 255;
                   "binary"%string := PyStr "0b11111111" ]}),
     [EvReadHoldingRegisters (PyInt 300) 1 (PyInt 1)]) /\
  binary_literal_value "0b11111111" = Some 255.
Proof.
  pose proof (get_status_binary (calm_world PyNone) sample_client [] (PyInt 300)
                (RegistersResponse [255]) 255 [] eq_refl eq_refl eq_refl eq_refl)
    as (Hrun & _ & Hbin).
  split; [exact Hrun | exact Hbin].
Defined.

(** The status words 0, 1, 255 and 65535. *)
Example bin_examples :
  bin 0 = "0b0"%string /\ bin 1 = "0b1"%string /\
  bin 255 = "0b11111111"%string /\ bin 65535 = "0b1111111111111111"%string /\
  pretty 0 = "0"%string /\ pretty 1 = "1"%string /\
  pretty 255 = "255"%string /\ pretty 65535 = "65535"%string.
Proof. repeat split; reflexivity. Qed.

(** ** Construction and shutdown *)

Section Lifecycle.

Variable w : World.

Lemma getitem_dict (d : gmap string pyval) (k : string) (v : pyval) :
  d !! k = Some v -> py_getitem (PyDict d) (PyStr k) = Ok v.
Proof. intros H. simpl. by rewrite H. Qed.

Lemma getitem_dict_missing (d : gmap string pyval) (k : string) :
  d !! k = None -> py_getitem (PyDict d) (PyStr k) = Raised (KeyError (PyStr k)).
Proof. intros H. simpl. by rewrite H. Qed.

Lemma py_or_dict (d : gmap string pyval) : py_or (PyDict d) (PyDict ∅) = PyDict d.
Proof.
  unfold py_or, py_truthy. destruct (bool_decide_reflect (d = ∅)) as [-> | _]; done.
Qed.

Lemma load_config_ok (path : string) (h : list event)
    (d rcs : gmap string pyval) (hostv portv timeoutv unitv regs cal : pyval) :
  on_open_yaml w h path = Ok (PyDict d) ->
  d !! "rcs"%string = Some (PyDict rcs) ->
  rcs !! "host"%string = Some hostv ->
  rcs !! "port"%string = Some portv ->
  rcs !! "timeout"%string = Some timeoutv ->
  rcs !! "unit_id"%string = Some unitv ->
  d !! "registers"%string = Some regs ->
  d !! "calibration"%string = Some cal ->
  _load_config w path h =
    (Ok {| host := hostv; port := portv; timeout := timeoutv; unit_id := unitv;
           registers := regs; calibration := cal |},
     [EvOpen path]).
Proof.
  intros Hopen Hrcs Hhost Hport Htimeout Hunit Hregs Hcal.
  pose proof (getitem_dict _ _ _ Hrcs) as Grcs.
  pose proof (getitem_dict _ _ _ Hhost) as Ghost.
  pose proof (getitem_dict _ _ _ Hport) as Gport.
  pose proof (getitem_dict _ _ _ Htimeout) as Gtimeout.
  pose proof (getitem_dict _ _ _ Hunit) as Gunit.
  pose proof (getitem_dict _ _ _ Hregs) as Gregs.
  pose proof (getitem_dict _ _ _ Hcal) as Gcal.
  apply run_eq; unfold _load_config; run_with_hyps; rewrite py_or_dict;
    run_with_hyps; reflexivity.
Qed.

(** C4, as the code has it.  The constructor never looks into the register
    map: with a document that has its rcs section, a register map without
    status_word and a calibration section, it opens the file and goes on to
    connect; it returns the client when the connection succeeds.  The
    missing entry shows only when [get_status] is called, as a KeyError
    raised before any read. *)
Theorem init_does_not_check_register_map (path : string) (h : list event)
    (d rcs regs : gmap string pyval) (hostv portv timeoutv unitv cal : pyval) :
  on_open_yaml w h path = Ok (PyDict d) ->
  d !! "rcs"%string = Some (PyDict rcs) ->
  rcs !! "host"%string = Some hostv ->
  rcs !! "port"%string = Some portv ->
  rcs !! "timeout"%string = Some timeoutv ->
  rcs !! "unit_id"%string = Some unitv ->
  d !! "registers"%string = Some (PyDict regs) ->
  d !! "calibration"%string = Some cal ->
  regs !! "status_word"%string = None ->
  let self :=
    {| config := {| host := hostv; port := portv; timeout := timeoutv;
                    unit_id := unitv; registers := PyDict regs;
                    calibration := cal |};
       client := {| tcp_host := hostv; tcp_port := portv;
                    tcp_timeout := timeoutv; tcp_retries := 3;
                    tcp_retry_on_empty := true |} |} in
  (exists rest, events (__init__ w path h) =
                  EvOpen path :: EvConnect (client self) :: rest) /\
  (on_connect w (h ++ [EvOpen path]) (client self) = Ok true ->
   __init__ w path h =
     (Ok self, [EvOpen path; EvConnect (client self);
                EvLog INFO [FLit "Connected to RCS via Modbus TCP"]])) /\
  (forall h', get_status w self h' = (Raised (KeyError (PyStr "status_word")), [])).
Proof.
  intros Hopen Hrcs Hhost Hport Htimeout Hunit Hregs Hcal Hmissing self.
  pose proof (load_config_ok path h d rcs hostv portv timeoutv unitv (PyDict regs) cal
                Hopen Hrcs Hhost Hport Htimeout Hunit Hregs Hcal) as Hload.
  pose proof (getitem_dict_missing _ _ Hmissing) as Gmissing.
  subst self. cbn [client config registers].
  split; [| split].
  - unfold __init__. rewrite events_bind, Hload.
    cbn [result events fst snd host port timeout client config app].
    unfold_client. autorewrite with run. eauto.
  - intros Hc. apply run_eq; unfold __init__.
    + rewrite result_bind, Hload.
      cbn [result events fst snd host port timeout client config app].
      unfold_client. repeat (run_with_hyps; cbn [client config negb]).
      reflexivity.
    + rewrite events_bind, Hload.
      cbn [result events fst snd host port timeout client config app].
      unfold_client. repeat (run_with_hyps; cbn [client config negb]).
      reflexivity.
  - intros h'. apply run_eq; unfold_client; cbn [config registers];
      run_with_hyps; reflexivity.
Qed.


End Lifecycle.

Lemma init_does_not_check_register_map_witness :
  __init__ (calm_world (document registers_without_status_word)) "config/config.yaml" [] =
    (Ok (client_of registers_without_status_word),
     [EvOpen "config/config.yaml";
      EvConnect (client (client_of registers_without_status_word));
      EvLog INFO [FLit "Connected to RCS via Modbus TCP"]]) /\
  get_status (calm_world (document registers_without_status_word))
             (client_of registers_without_status_word) [] =
    (Raised (KeyError (PyStr "status_word")), []).
Proof.
  pose proof (init_does_not_check_register_map
                (calm_world (document registers_without_status_word))
                "config/config.yaml" []
                {[ "rcs"%string := PyDict sample_rcs;
                   "registers"%string := PyDict registers_without_status_word;
                   "calibration"%string := PyDict sample_calibration ]}
                sample_rcs registers_without_status_word
                (PyStr "192.168.0.10") (PyInt 502) (PyInt 3) (PyInt 1)
                (PyDict sample_calibration)
                eq_refl eq_refl eq_refl eq_refl eq_refl eq_refl eq_refl eq_refl eq_refl)
    as (_ & Hinit & Hstatus).
  split; [exact (Hinit eq_refl) | exact (Hstatus [])].
Defined.

(** C4, as stated, fails.  With a register map that lacks status_word the
    constructor raises nothing: it connects to the controller and returns
    the client. *)
Lemma construction_without_status_word :
  registers_without_status_word !! "status_word"%string = None /\
  result (__init__ (calm_world (document registers_without_status_word))
                   "config/config.yaml" []) =
    Ok (client_of registers_without_status_word) /\
  transport_calls
    (events (__init__ (calm_world (document registers_without_status_word))
                      "config/config.yaml" [])) =
    [EvConnect (client (client_of registers_without_status_word))].
Proof. repeat split; reflexivity. Qed.


(** ** Calibration *)

Section Calibration.

Variable w : World.

Lemma console_only_lift {A} (o : outcome A) : console_only (lift o).
Proof. intros h. constructor. Qed.

Lemma console_only_ret {A} (a : A) : console_only (mret a).
Proof. intros h. constructor. Qed.

Lemma console_only_info (msg : fstring) : console_only (info msg).
Proof. intros h. by repeat constructor. Qed.

Lemma console_only_input (prompt : string) : console_only (input w prompt).
Proof. intros h. by repeat constructor. Qed.

Lemma console_only_bind {A B} (m : M A) (f : A -> M B) :
  console_only m -> (forall a, console_only (f a)) -> console_only (m ≫= f).
Proof.
  intros Hm Hf h. rewrite events_bind. apply Forall_app. split; [apply Hm |].
  destruct (result (m h)); [apply Hf | constructor].
Qed.

Lemma console_only_calibrate_points (points : list pyval) :
  forall i, console_only (calibrate_points w i points).
Proof.
  induction points as [| point rest IH]; intros i; simpl.
  - apply console_only_ret.
  - apply console_only_bind; [apply console_only_lift |].
    intros [[x y] z].
    repeat (apply console_only_bind;
            [first [apply console_only_lift | apply console_only_info
                   | apply console_only_input] | intros ?]).
    apply IH.
Qed.

Lemma console_no_transport (tr : list event) :
  Forall (fun ev => is_console ev = true) tr ->
  transport_calls tr = [] /\ register_ops tr = [].
Proof.
  induction 1 as [| ev tr Hev _ [IH1 IH2]]; [done |].
  unfold transport_calls, register_ops in *. simpl.
  destruct ev; try discriminate Hev; simpl; by rewrite ?IH1, ?IH2.
Qed.

(** C10. Whatever the configuration and the world, every event of
    [calibrate_base] is a log line or an operator prompt: it makes no call
    on the transport, so it reads and writes no register. *)
Theorem calibrate_base_no_register_traffic (self : RCSModbusClient) (h : list event) :
  Forall (fun ev => is_console ev = true) (events (calibrate_base w self h)) /\
  transport_calls (events (calibrate_base w self h)) = [] /\
  register_ops (events (calibrate_base w self h)) = [].
Proof.
  assert (H : console_only (calibrate_base w self)).
  { unfold calibrate_base.
    apply console_only_bind; [apply console_only_info | intros _].
    apply console_only_bind; [apply console_only_lift | intros cones].
    apply console_only_bind; [apply console_only_lift | intros points].
    apply console_only_bind; [apply console_only_calibrate_points | intros _].
    apply console_only_info. }
  split; [apply H | apply console_no_transport, H].
Qed.

End Calibration.

(** With the two sample cones the operator is prompted twice. *)
Example calibrate_base_sample :
  List.map is_console (events (calibrate_base (calm_world PyNone) sample_client [])) =
    [true; true; true; true; true; true] /\
  result (calibrate_base (calm_world PyNone) sample_client []) = Ok tt.
Proof. split; reflexivity. Qed.


(* ===================================================================== *)
(** * Part III. Further properties of the code                            *)
(* ===================================================================== *)

(** ** Rounding to single precision *)

Lemma shr_1_m (mrs : shr_record) :
  0 <= shr_m mrs -> shr_m (shr_1 mrs) = shr_m mrs / 2.
Proof.
  destruct mrs as [m r s]. cbn [shr_m]. intros Hm. rewrite <- Z.div2_div.
  destruct m as [| [p | p |] | p]; try reflexivity. lia.
Qed.

Lemma iter_shr_1_m (p : positive) :
  forall mrs, 0 <= shr_m mrs ->
    shr_m (SpecFloat.iter_pos shr_1 p mrs) = shr_m mrs / 2 ^ Z.pos p.
Proof.
  assert (Hpow : forall q, 0 < 2 ^ Z.pos q) by (intros q; apply Z.pow_pos_nonneg; lia).
  induction p as [p IH | p IH |]; intros mrs Hm; cbn [SpecFloat.iter_pos].
  - assert (H1 : 0 <= shr_m (shr_1 mrs)) by (rewrite shr_1_m by lia; apply Z.div_pos; lia).
    assert (H2 : 0 <= shr_m (SpecFloat.iter_pos shr_1 p (shr_1 mrs)))
      by (rewrite IH by lia; apply Z.div_pos; [lia | apply Hpow]).
    rewrite IH, IH, shr_1_m by lia.
    pose proof (Hpow p).
    rewrite !Z.div_div by lia.
    replace (Z.pos p~1) with (1 + (Z.pos p + Z.pos p)) by lia.
    rewrite !Z.pow_add_r by lia. change (2 ^ 1) with 2. f_equal; lia.
  - assert (H2 : 0 <= shr_m (SpecFloat.iter_pos shr_1 p mrs))
      by (rewrite IH by lia; apply Z.div_pos; [lia | apply Hpow]).
    rewrite IH, IH by lia.
    pose proof (Hpow p).
    rewrite !Z.div_div by lia.
    replace (Z.pos p~0) with (Z.pos p + Z.pos p) by lia.
    rewrite !Z.pow_add_r by lia. reflexivity.
  - rewrite shr_1_m by lia. reflexivity.
Qed.

(** [shr_fexp] at binary32: the exponent moves up to [fexp], never down, and
    the mantissa is divided accordingly. *)
Lemma shr_fexp_spec (m e : Z) (l : location) :
  0 <= m ->
  let n := Z.max (fexp prec32 emax32 (Zdigits2 m + e) - e) 0 in
  shr_m (fst (shr_fexp prec32 emax32 m e l)) = m / 2 ^ n /\
  snd (shr_fexp prec32 emax32 m e l) = e + n.
Proof.
  intros Hm n. subst n. unfold shr_fexp, shr.
  assert (Hrec : shr_m (shr_record_of_loc m l) = m) by (destruct l as [| []]; reflexivity).
  destruct (fexp prec32 emax32 (Zdigits2 m + e) - e) as [| p | p] eqn:E; cbn [fst snd].
  - rewrite Hrec. simpl. rewrite Z.div_1_r. lia.
  - rewrite iter_shr_1_m by lia. rewrite Hrec.
    replace (Z.max (Z.pos p) 0) with (Z.pos p) by lia. done.
  - rewrite Hrec. replace (Z.max (Z.neg p) 0) with 0 by lia.
    simpl. rewrite Z.div_1_r. lia.
Qed.

Lemma digits2_pos_unique (p : positive) (d : Z) :
  2 ^ (d - 1) <= Z.pos p < 2 ^ d -> Z.pos (digits2_pos p) = d.
Proof.
  intros [Hlo Hhi]. pose proof (digits2_pos_bounds p) as [Glo Ghi].
  set (k := Z.pos (digits2_pos p)) in *.
  assert (Hk : 1 <= k) by (unfold k; lia).
  assert (Hd : 0 <= d).
  { destruct (Z.lt_ge_cases d 0) as [Hneg |]; [| done].
    rewrite (Z.pow_neg_r 2 d) in Hhi by lia. lia. }
  destruct (Z.lt_trichotomy k d) as [Hlt | [-> | Hgt]]; [| done |].
  - assert (2 ^ k <= 2 ^ (d - 1)) by (apply Z.pow_le_mono_r; lia). lia.
  - assert (2 ^ d <= 2 ^ (k - 1)) by (apply Z.pow_le_mono_r; lia). lia.
Qed.

Lemma round_nearest_even_cases (m : Z) (l : location) :
  round_nearest_even m l = m \/ round_nearest_even m l = m + 1.
Proof. destruct l as [| []]; simpl; try destruct (Z.even m); auto. Qed.

Lemma fexp32_eq (x : Z) : fexp prec32 emax32 x = Z.max (x - 24) (-149).
Proof. reflexivity. Qed.

Lemma digits2_pos_le (q : positive) (k : Z) :
  0 <= k -> Z.pos q < 2 ^ k -> Z.pos (digits2_pos q) <= k.
Proof.
  intros Hk Hq. pose proof (digits2_pos_bounds q) as [Hlo _].
  assert (H : 2 ^ (Z.pos (digits2_pos q) - 1) < 2 ^ k) by lia.
  apply Z.pow_lt_mono_r_iff in H; lia.
Qed.

Lemma valid_finite32 (s : bool) (q : positive) (e : Z) :
  fexp prec32 emax32 (Z.pos (digits2_pos q) + e) = e ->
  valid_binary prec32 emax32
    (if e <=? emax32 - prec32 then S754_finite s q e else S754_infinity s) = true.
Proof.
  intros Hc. destruct (e <=? emax32 - prec32) eqn:E; [| reflexivity].
  simpl. unfold bounded, canonical_mantissa. rewrite Hc, Z.eqb_refl, E. reflexivity.
Qed.

(** The shape of a rounding to binary32 of an aligned mantissa: zero (only
    below the normal range), or a canonical mantissa whose exponent is the
    target exponent or one more, replaced by an infinity when that exponent
    exceeds 104. *)
Lemma binary_round_aux_shape32 (s : bool) (mz : positive) (e : Z) :
  e <= fexp prec32 emax32 (Z.pos (digits2_pos mz) + e) ->
  let target := fexp prec32 emax32 (Z.pos (digits2_pos mz) + e) in
  let r := binary_round_aux prec32 emax32 s (Z.pos mz) e loc_Exact in
  (r = S754_zero s /\ target = -149) \/
  (exists q e2,
     r = (if e2 <=? emax32 - prec32 then S754_finite s q e2 else S754_infinity s) /\
     fexp prec32 emax32 (Z.pos (digits2_pos q) + e2) = e2 /\
     target <= e2 <= target + 1).
Proof.
  intros Hal target r. subst r target. unfold binary_round_aux.
  destruct (shr_fexp prec32 emax32 (Z.pos mz) e loc_Exact) as [mrs1 e1] eqn:E1.
  destruct (shr_fexp_spec (Z.pos mz) e loc_Exact) as [Hm1 He1]; [lia |].
  rewrite E1 in Hm1, He1. cbn [fst snd] in Hm1, He1.
  cbn [Zdigits2] in Hm1, He1.
  pose proof (digits2_pos_bounds mz) as [Hlo Hhi].
  set (d := Z.pos (digits2_pos mz)) in *.
  assert (Hd : 1 <= d) by (unfold d; lia).
  rewrite fexp32_eq in *.
  set (m2 := round_nearest_even (shr_m mrs1) (loc_of_shr_record mrs1)).
  assert (Hm2 : m2 = shr_m mrs1 \/ m2 = shr_m mrs1 + 1)
    by apply round_nearest_even_cases.
  assert (He1' : e1 = Z.max (d + e - 24) (-149)) by lia.
  (* the mantissa after the first shift *)
  assert (Hcases :
    (2 ^ 23 <= shr_m mrs1 < 2 ^ 24 /\ -149 <= e1) \/
    (0 <= shr_m mrs1 < 2 ^ 23 /\ e1 = -149)).
  { destruct (Z.le_gt_cases (-149) (d + e - 24)) as [Hn | Hs].
    - left. replace (Z.max (d + e - 24) (-149)) with (d + e - 24) in * by lia.
      replace (Z.max (d + e - 24 - e) 0) with (d - 24) in * by lia.
      assert (0 < 2 ^ (d - 24)) by (apply Z.pow_pos_nonneg; lia).
      assert (P1 : 2 ^ d = 2 ^ (d - 24) * 2 ^ 24)
        by (rewrite <- Z.pow_add_r by lia; f_equal; lia).
      assert (P2 : 2 ^ (d - 1) = 2 ^ (d - 24) * 2 ^ 23)
        by (rewrite <- Z.pow_add_r by lia; f_equal; lia).
      rewrite Hm1. split; [split |]; [| | lia].
      + apply Z.div_le_lower_bound; lia.
      + apply Z.div_lt_upper_bound; lia.
    - right. replace (Z.max (d + e - 24) (-149)) with (-149) in * by lia.
      replace (Z.max (-149 - e) 0) with (-149 - e) in * by lia.
      assert (0 < 2 ^ (-149 - e)) by (apply Z.pow_pos_nonneg; lia).
      assert (P1 : 2 ^ d <= 2 ^ (-149 - e) * 2 ^ 23).
      { rewrite <- Z.pow_add_r by lia. apply Z.pow_le_mono_r; lia. }
      rewrite Hm1. split; [split |]; [| | lia].
      + apply Z.div_pos; lia.
      + apply Z.div_lt_upper_bound; lia. }
  clear Hm1 He1.
  destruct (shr_fexp prec32 emax32 m2 e1 loc_Exact) as [mrs2 e2] eqn:E2.
  destruct (shr_fexp_spec m2 e1 loc_Exact) as [Hm3 He3]; [lia |].
  rewrite E2 in Hm3, He3. cbn [fst snd] in Hm3, He3.
  rewrite fexp32_eq in Hm3, He3.
  change (2 ^ 23) with 8388608 in Hcases. change (2 ^ 24) with 16777216 in Hcases.
  destruct m2 as [| q | q]; [| | lia].
  - (* rounded to zero *)
    left. rewrite Hm3. rewrite Z.div_0_l by (apply Z.pow_nonzero; lia).
    split; [reflexivity | lia].
  - right. cbn [Zdigits2] in Hm3, He3.
    pose proof (digits2_pos_bounds q) as [Qlo Qhi].
    set (dq := Z.pos (digits2_pos q)) in *.
    assert (Hdq : 1 <= dq) by (unfold dq; lia).
    destruct (Z.eq_dec (Z.pos q) 16777216) as [Hq | Hq].
    + (* the mantissa overflowed to 2^24 *)
      assert (dq = 25) by (apply digits2_pos_unique; rewrite Hq; done).
      assert (-149 <= e1) by lia.
      replace (Z.max (Z.max (dq + e1 - 24) (-149) - e1) 0) with 1 in * by lia.
      rewrite Hm3, Hq. change (16777216 / 2 ^ 1) with (Z.pos 8388608).
      cbv iota beta. exists 8388608%positive, e2. split; [reflexivity |].
      rewrite fexp32_eq. change (Z.pos (digits2_pos 8388608)) with 24. lia.
    + assert (Hq' : Z.pos q < 16777216) by lia.
      assert (dq <= 24) by (apply digits2_pos_le; [lia | done]).
      assert (Hdq24 : 8388608 <= Z.pos q -> dq = 24)
        by (intros; apply digits2_pos_unique; change (2 ^ (24 - 1)) with 8388608;
            change (2 ^ 24) with 16777216; lia).
      assert (Hn2 : Z.max (Z.max (dq + e1 - 24) (-149) - e1) 0 = 0).
      { destruct Hcases as [[Hr He] | [Hr He]]; [rewrite Hdq24 by lia |]; lia. }
      rewrite Hn2 in Hm3, He3. rewrite Z.div_1_r in Hm3.
      rewrite Hm3. cbv iota beta. exists q, e2. split; [reflexivity |].
      rewrite fexp32_eq. fold dq.
      destruct Hcases as [[Hr He] | [Hr He]]; [rewrite Hdq24 by lia |]; lia.
Qed.

Lemma pos_iter_xO (m p : positive) : Z.pos (Pos.iter xO m p) = Z.pos m * 2 ^ Z.pos p.
Proof.
  induction p as [| p IH] using Pos.peano_ind.
  - simpl. lia.
  - rewrite Pos.iter_succ, Pos2Z.inj_xO, IH, Pos2Z.inj_succ, Z.pow_succ_r by lia. lia.
Qed.

Lemma digits2_pos_shift (m p : positive) :
  Z.pos (digits2_pos (Pos.iter xO m p)) = Z.pos (digits2_pos m) + Z.pos p.
Proof.
  apply digits2_pos_unique. rewrite pos_iter_xO.
  pose proof (digits2_pos_bounds m) as [Hlo Hhi].
  assert (0 < 2 ^ Z.pos p) by (apply Z.pow_pos_nonneg; lia).
  replace (Z.pos (digits2_pos m) + Z.pos p - 1)
    with (Z.pos (digits2_pos m) - 1 + Z.pos p) by lia.
  rewrite !Z.pow_add_r by lia. nia.
Qed.

(** [binary_round] aligns its argument, so the shape above holds for every
    mantissa and exponent, with the target exponent of the argument. *)
Lemma binary_round_shape32 (s : bool) (m : positive) (e : Z) :
  let target := fexp prec32 emax32 (Z.pos (digits2_pos m) + e) in
  let r := binary_round prec32 emax32 s m e in
  (r = S754_zero s /\ target = -149) \/
  (exists q e2,
     r = (if e2 <=? emax32 - prec32 then S754_finite s q e2 else S754_infinity s) /\
     fexp prec32 emax32 (Z.pos (digits2_pos q) + e2) = e2 /\
     target <= e2 <= target + 1).
Proof.
  intros target r. subst r. unfold binary_round, shl_align. fold target.
  destruct (target - e) as [| p | p] eqn:E.
  - apply binary_round_aux_shape32. fold target. lia.
  - apply binary_round_aux_shape32. fold target. lia.
  - assert (Hd : Z.pos (digits2_pos (Pos.iter xO m p)) + target
                 = Z.pos (digits2_pos m) + e)
      by (rewrite digits2_pos_shift; lia).
    pose proof (binary_round_aux_shape32 s (Pos.iter xO m p) target) as H.
    rewrite Hd in H. fold target in H. apply H. lia.
Qed.

Lemma binary_round_valid32 (s : bool) (m : positive) (e : Z) :
  valid_binary prec32 emax32 (binary_round prec32 emax32 s m e) = true.
Proof.
  destruct (binary_round_shape32 s m e) as [[-> _] | (q & e2 & -> & Hc & _)];
    [reflexivity | by apply valid_finite32].
Qed.

Lemma float_to_single_is_valid (x : spec_float) :
  valid_binary prec32 emax32 (float_to_single x) = true.
Proof. destruct x; try reflexivity. apply binary_round_valid32. Qed.

Lemma encodeFloat32_words (v : pyval) (regs : list Z) :
  encodeFloat32 v = Ok regs ->
  exists x,
    struct_float_arg v = Ok x /\
    0 <= bits_of_single (float_to_single x) < 2 ^ 32 /\
    regs = [bits_of_single (float_to_single x) mod 2 ^ 16;
            bits_of_single (float_to_single x) / 2 ^ 16].
Proof.
  unfold encodeFloat32, add_32bit_float, pack_net_f, PyFloat_Pack4.
  destruct (struct_float_arg v) as [x | e]; [| discriminate].
  destruct (is_infinity (float_to_single x) && negb (is_infinity x)); [discriminate |].
  pose proof (bits_of_single_range _ (float_to_single_is_valid x)) as Hr.
  cbn [bpb_payload bpb_byteorder bpb_wordorder bpb_repack app].
  rewrite (registers_of_bits _ Hr). intros [= <-]. eauto.
Qed.

(** X1. [_write_float] either refuses the value ([struct.pack] raises) and
    sends nothing, or makes exactly one [write_registers] call carrying two
    words, each between 0 and 65535, and ends as that call ends. *)
Theorem write_float_sends_two_words (w : World) (self : RCSModbusClient)
    (address value : pyval) (h : list event) :
  (exists e, encodeFloat32 value = Raised e /\
             _write_float w self address value h = (Raised e, [])) \/
  (exists w0 w1,
     0 <= w0 < 2 ^ 16 /\ 0 <= w1 < 2 ^ 16 /\
     encodeFloat32 value = Ok [w0; w1] /\
     _write_float w self address value h =
       (on_write_registers w h address [w0; w1] (unit_id (config self)),
        [EvWriteRegisters address [w0; w1] (unit_id (config self))])).
Proof.
  destruct (encodeFloat32 value) as [regs | e] eqn:E.
  - right. destruct (encodeFloat32_words value regs E) as (x & _ & Hr & ->).
    change (2 ^ 32) with 4294967296 in Hr. change (2 ^ 16) with 65536.
    eexists _, _. split; [| split; [| split; [reflexivity |]]].
    + Z.div_mod_to_equations; lia.
    + Z.div_mod_to_equations; lia.
    + apply run_eq; unfold _write_float; autorewrite with run; rewrite E;
        autorewrite with run; reflexivity.
  - left. exists e. split; [reflexivity |].
    apply run_eq; unfold _write_float; autorewrite with run; rewrite E; reflexivity.
Qed.

(** X2. Two floats are sent as the same register words only when they round
    to the same single-precision number. *)
Theorem encodeFloat32_injective_on_singles (x1 x2 : spec_float) (regs : list Z) :
  encodeFloat32 (PyFloat x1) = Ok regs ->
  encodeFloat32 (PyFloat x2) = Ok regs ->
  float_to_single x1 = float_to_single x2.
Proof.
  intros H1 H2.
  destruct (encodeFloat32_words _ _ H1) as (y1 & [= <-] & R1 & ->).
  destruct (encodeFloat32_words _ _ H2) as (y2 & [= <-] & R2 & E).
  injection E as Elo Ehi.
  assert (Hb : bits_of_single (float_to_single x1) = bits_of_single (float_to_single x2)).
  { change (2 ^ 32) with 4294967296 in *. change (2 ^ 16) with 65536 in *.
    Z.div_mod_to_equations; lia. }
  rewrite <- (single_of_bits_of_single _ (float_to_single_is_valid x1)).
  rewrite <- (single_of_bits_of_single _ (float_to_single_is_valid x2)).
  by rewrite Hb.
Qed.

Lemma encodeFloat32_injective_on_singles_witness :
  float_to_single (S754_finite false 7205759403792794 (-56)) =
  float_to_single (S754_finite false 13421773 (-27)).
Proof.
  exact (encodeFloat32_injective_on_singles
           (S754_finite false 7205759403792794 (-56))
           (S754_finite false 13421773 (-27)) [52429; 15820] eq_refl eq_refl).
Defined.

(** X3. The range [struct.pack] accepts.  For a finite float with mantissa
    [m] and exponent [e], [digits2_pos m + e] is the position of its leading
    bit: its magnitude lies between 2^(digits+e-1) and 2^(digits+e).  Every
    magnitude below 2^127 is sent; every magnitude from 2^128 on raises
    OverflowError. *)
Theorem encodeFloat32_range (s : bool) (m : positive) (e : Z) :
  (Z.pos (digits2_pos m) + e <= 127 ->
   exists regs, encodeFloat32 (PyFloat (S754_finite s m e)) = Ok regs) /\
  (129 <= Z.pos (digits2_pos m) + e ->
   encodeFloat32 (PyFloat (S754_finite s m e)) = Raised OverflowError).
Proof.
  unfold encodeFloat32, add_32bit_float, pack_net_f, struct_float_arg, PyFloat_Pack4.
  cbn [float_to_single is_infinity negb]. rewrite andb_true_r.
  destruct (binary_round_shape32 s m e) as [[-> Ht] | (q & e2 & -> & _ & He2)].
  - rewrite fexp32_eq in Ht. split; [simpl; eauto | intros H; lia].
  - rewrite fexp32_eq in He2. change (emax32 - prec32) with 104.
    split; intros H.
    + destruct (Z.leb_spec e2 104); [simpl; eauto | lia].
    + destruct (Z.leb_spec e2 104); [lia | reflexivity].
Qed.

Lemma encodeFloat32_range_witness :
  (exists regs, encodeFloat32 (PyFloat (S754_finite true 3 125)) = Ok regs) /\
  encodeFloat32 (PyFloat (S754_finite true 1 128)) = Raised OverflowError.
Proof.
  split.
  - apply (proj1 (encodeFloat32_range true 3 125)). simpl. lia.
  - apply (proj2 (encodeFloat32_range true 1 128)). simpl. lia.
Defined.

(** ** Commands on incomplete register maps *)

Ltac run_all :=
  run_with_hyps;
  repeat (match goal with
          | |- context [match ?x with Ok _ => _ | Raised _ => _ end] =>
              let E := fresh "E" in destruct x as [? | ?] eqn:E
          end; run_with_hyps).

Section Commands.

Variable w : World.
Variable self : RCSModbusClient.

Let u := unit_id (config self).

(** X4. A command whose register is not in the register map raises
    KeyError naming it, before any call leaves the client. *)
Theorem missing_register_raises_before_traffic (program_id x y z : pyval)
    (h : list event) (d : gmap string pyval) :
  registers (config self) = PyDict d ->
  (d !! "reset_errors"%string = None ->
   reset_errors w self h = (Raised (KeyError (PyStr "reset_errors")), [])) /\
  (d !! "enable_drives"%string = None ->
   enable_drives w self h = (Raised (KeyError (PyStr "enable_drives")), [])) /\
  (d !! "program_number"%string = None ->
   start_program w self program_id h = (Raised (KeyError (PyStr "program_number")), [])) /\
  (d !! "target_x"%string = None ->
   move_to_xyz w self x y z h = (Raised (KeyError (PyStr "target_x")), [])) /\
  (d !! "status_word"%string = None ->
   get_status w self h = (Raised (KeyError (PyStr "status_word")), [])).
Proof.
  intros Hregs.
  repeat split; intros Hmiss; pose proof (getitem_dict_missing _ _ Hmiss) as G;
    apply run_eq; unfold move_to_xyz; unfold_client; rewrite Hregs;
    run_with_hyps; reflexivity.
Qed.

(** X5. With program_number in the register map and start_program missing,
    [start_program] writes the program number and stops there: the only
    event is that write, and the run ends with the failure of that write or
    else with KeyError('start_program'). *)
Theorem start_program_without_trigger_register (program_id : pyval)
    (h : list event) (d : gmap string pyval) (pn : pyval) :
  registers (config self) = PyDict d ->
  d !! "program_number"%string = Some pn ->
  d !! "start_program"%string = None ->
  events (start_program w self program_id h) = [EvWriteRegister pn program_id u] /\
  result (start_program w self program_id h) =
    match on_write_register w h pn program_id u with
    | Ok _ => Raised (KeyError (PyStr "start_program"))
    | Raised e => Raised e
    end.
Proof.
  intros Hregs Hpn Hsp. subst u.
  pose proof (getitem_dict _ _ _ Hpn) as Gpn.
  pose proof (getitem_dict_missing _ _ Hsp) as Gsp.
  unfold_client. rewrite Hregs. split; run_all; reflexivity.
Qed.

(** X6. With its registers configured, a pulse makes its calls in the
    order write 1, sleep 0.1, write 0, log, each one only after the one
    before it has returned: the events are those four up to and including
    the first that the world answers with an exception.  So the write of 0
    is made exactly when the write of 1 and then the settle delay have
    returned.  For [start_program] the write of the program number comes
    first, in the same way. *)
Theorem pulse_events_in_order (program_id : pyval) (h : list event)
    (trig pn sp : pyval) :
  py_getitem (registers (config self)) (PyStr "reset_errors") = Ok trig ->
  py_getitem (registers (config self)) (PyStr "program_number") = Ok pn ->
  py_getitem (registers (config self)) (PyStr "start_program") = Ok sp ->
  events (reset_errors w self h) =
    until_failure w h
      [EvWriteRegister trig (PyInt 1) u; EvSleep settle_delay;
       EvWriteRegister trig (PyInt 0) u;
       EvLog INFO [FLit "Errors have been reset"]] /\
  events (start_program w self program_id h) =
    until_failure w h
      [EvWriteRegister pn program_id u;
       EvWriteRegister sp (PyInt 1) u; EvSleep settle_delay;
       EvWriteRegister sp (PyInt 0) u;
       EvLog INFO [FLit "Started program #"; FVal program_id]].
Proof.
  intros Htrig Hpn Hsp. subst u. split; unfold_client; run_all.
  all: cbn [until_failure raised_by];
    repeat match goal with
           | H : ?x = _ |- context [?x] => rewrite H
           end; reflexivity.
Qed.

(** X7. [get_status] never writes: whatever the world answers, it makes no
    call on the transport, or exactly one, a read of one holding register
    at the configured address. *)
Theorem get_status_reads_once (h : list event) :
  register_writes (events (get_status w self h)) = [] /\
  (events (get_status w self h) = [] \/
   exists a, py_getitem (registers (config self)) (PyStr "status_word") = Ok a /\
             events (get_status w self h) = [EvReadHoldingRegisters a 1 u]).
Proof.
  subst u. unfold_client. run_all.
  all: try (destruct (isError _)); try (destruct (resp_registers _));
    autorewrite with run; split; try reflexivity; eauto.
Qed.

(** X8. A read that is answered without error and without registers makes
    [get_status] raise IndexError, after that one read. *)
Theorem get_status_without_registers (h : list event) (a : pyval) (resp : response) :
  py_getitem (registers (config self)) (PyStr "status_word") = Ok a ->
  on_read_holding_registers w h a 1 u = Ok resp ->
  isError resp = false ->
  resp_registers resp = [] ->
  get_status w self h = (Raised IndexError, [EvReadHoldingRegisters a 1 u]).
Proof.
  intros Ha Hread Herr Hregs. subst u.
  apply run_eq; unfold_client; run_with_hyps; rewrite Herr, Hregs; reflexivity.
Qed.

End Commands.

Lemma missing_register_raises_before_traffic_witness :
  reset_errors (calm_world PyNone) (client_of ∅) [] =
    (Raised (KeyError (PyStr "reset_errors")), []) /\
  move_to_xyz (calm_world PyNone) (client_of ∅) (PyInt 1) (PyInt 2) (PyInt 3) [] =
    (Raised (KeyError (PyStr "target_x")), []).
Proof.
  pose proof (missing_register_raises_before_traffic (calm_world PyNone) (client_of ∅)
                (PyInt 1) (PyInt 1) (PyInt 2) (PyInt 3) [] ∅ eq_refl)
    as (H1 & _ & _ & H4 & _).
  split; [exact (H1 eq_refl) | exact (H4 eq_refl)].
Defined.

Lemma start_program_without_trigger_register_witness :
  events (start_program (calm_world PyNone)
            (client_of (delete "start_program"%string sample_registers)) (PyInt 7) []) =
    [EvWriteRegister (PyInt 107) (PyInt 7) (PyInt 1)] /\
  result (start_program (calm_world PyNone)
            (client_of (delete "start_program"%string sample_registers)) (PyInt 7) []) =
    Raised (KeyError (PyStr "start_program")).
Proof.
  exact (start_program_without_trigger_register (calm_world PyNone)
           (client_of (delete "start_program"%string sample_registers)) (PyInt 7) []
           (delete "start_program"%string sample_registers) (PyInt 107)
           eq_refl eq_refl eq_refl).
Defined.

Lemma pulse_events_in_order_witness :
  events (reset_errors world_interrupted_delay sample_client []) =
    [EvWriteRegister (PyInt 100) (PyInt 1) (PyInt 1); EvSleep settle_delay] /\
  events (start_program world_failing_after_high sample_client (PyInt 7) []) =
    [EvWriteRegister (PyInt 107) (PyInt 7) (PyInt 1);
     EvWriteRegister (PyInt 108) (PyInt 1) (PyInt 1)] /\
  events (reset_errors (calm_world PyNone) sample_client []) =
    [EvWriteRegister (PyInt 100) (PyInt 1) (PyInt 1); EvSleep settle_delay;
     EvWriteRegister (PyInt 100) (PyInt 0) (PyInt 1);
     EvLog INFO [FLit "Errors have been reset"]].
Proof.
  split; [| split].
  - exact (proj1 (pulse_events_in_order world_interrupted_delay sample_client (PyInt 7) []
                    (PyInt 100) (PyInt 107) (PyInt 108) eq_refl eq_refl eq_refl)).
  - exact (proj2 (pulse_events_in_order world_failing_after_high sample_client (PyInt 7) []
                    (PyInt 100) (PyInt 107) (PyInt 108) eq_refl eq_refl eq_refl)).
  - exact (proj1 (pulse_events_in_order (calm_world PyNone) sample_client (PyInt 7) []
                    (PyInt 100) (PyInt 107) (PyInt 108) eq_refl eq_refl eq_refl)).
Defined.

Lemma get_status_without_registers_witness :
  get_status world_empty_read sample_client [] =
    (Raised IndexError, [EvReadHoldingRegisters (PyInt 300) 1 (PyInt 1)]).
Proof.
  exact (get_status_without_registers world_empty_read sample_client [] (PyInt 300)
           (RegistersResponse []) eq_refl eq_refl eq_refl eq_refl).
Defined.

(** ** Failures of the transport *)

Section Failures.

Variable w : World.
Variable self : RCSModbusClient.




End Failures.


(** ** Moves and the home position *)

Section Homing.

Variable w : World.
Variable self : RCSModbusClient.

Let u := unit_id (config self).

Lemma seq_index_lookup (l : list pyval) (i : nat) (v : pyval) :
  l !! i = Some v -> seq_index l (Z.of_nat i) = Ok v.
Proof.
  intros H. pose proof (lookup_lt_Some _ _ _ H) as Hlt. unfold seq_index.
  destruct (Z.ltb_spec (Z.of_nat i) 0) as [? | _]; [lia |].
  destruct (Z.leb_spec 0 (Z.of_nat i)) as [_ | ?]; [| lia].
  destruct (Z.ltb_spec (Z.of_nat i) (Z.of_nat (length l))) as [_ | ?]; [| lia].
  simpl. by rewrite Nat2Z.id, H.
Qed.

(** X10. [go_home] needs three coordinates before it moves: without a
    home_position entry it raises KeyError, and with a home_position list
    of fewer than three items it raises IndexError, in both cases before
    any call leaves the client. *)
Theorem go_home_needs_three_coordinates (h : list event) :
  (forall d, calibration (config self) = PyDict d ->
             d !! "home_position"%string = None ->
             go_home w self h = (Raised (KeyError (PyStr "home_position")), [])) /\
  (forall l, py_getitem (calibration (config self)) (PyStr "home_position")
               = Ok (PyList l) ->
             (length l < 3)%nat ->
             go_home w self h = (Raised IndexError, [])).
Proof.
  split.
  - intros d Hcal Hmiss. pose proof (getitem_dict_missing _ _ Hmiss) as G.
    apply run_eq; unfold go_home; rewrite Hcal; run_with_hyps; reflexivity.
  - intros l Hpos Hlen.
    destruct l as [| a [| b [| c l]]]; simpl in Hlen; [| | | lia].
    + assert (E0 : py_getitem (PyList []) (PyInt 0) = Raised IndexError) by reflexivity.
      apply run_eq; unfold go_home; run_with_hyps; reflexivity.
    + assert (E0 : py_getitem (PyList [a]) (PyInt 0) = Ok a) by reflexivity.
      assert (E1 : py_getitem (PyList [a]) (PyInt 1) = Raised IndexError) by reflexivity.
      apply run_eq; unfold go_home; run_with_hyps; reflexivity.
    + assert (E0 : py_getitem (PyList [a; b]) (PyInt 0) = Ok a) by reflexivity.
      assert (E1 : py_getitem (PyList [a; b]) (PyInt 1) = Ok b) by reflexivity.
      assert (E2 : py_getitem (PyList [a; b]) (PyInt 2) = Raised IndexError) by reflexivity.
      apply run_eq; unfold go_home; run_with_hyps; reflexivity.
Qed.

(** X11. Coordinates after the third are ignored: with a home_position list
    of three items or more, [go_home] has the events of [move_to_xyz] on
    the first three, followed by its own log line when the move returned,
    and it ends as the move ends. *)
Theorem go_home_ignores_extra_coordinates (x y z : pyval) (rest : list pyval)
    (h : list event) :
  py_getitem (calibration (config self)) (PyStr "home_position")
    = Ok (PyList (x :: y :: z :: rest)) ->
  events (go_home w self h) =
    events (move_to_xyz w self x y z h)
    ++ (if is_ok (result (move_to_xyz w self x y z h))
        then [EvLog INFO [FLit "Returning to home position"]] else []) /\
  result (go_home w self h) = result (move_to_xyz w self x y z h).
Proof.
  intros Hpos.
  pose proof (seq_index_lookup (x :: y :: z :: rest) 0 x eq_refl) as H0.
  pose proof (seq_index_lookup (x :: y :: z :: rest) 1 y eq_refl) as H1.
  pose proof (seq_index_lookup (x :: y :: z :: rest) 2 z eq_refl) as H2.
  change (Z.of_nat 0) with 0 in H0. change (Z.of_nat 1) with 1 in H1.
  change (Z.of_nat 2) with 2 in H2.
  unfold go_home.
  rewrite !events_lift_bind, !result_lift_bind, Hpos. cbn [py_getitem].
  rewrite !events_lift_bind, !result_lift_bind, H0.
  rewrite !events_lift_bind, !result_lift_bind, H1.
  rewrite !events_lift_bind, !result_lift_bind, H2.
  rewrite events_bind, result_bind.
  destruct (result (move_to_xyz w self x y z h)) as [[] | e]; split; reflexivity.
Qed.

(** X12. [move_to_xyz] never starts the program on a partial target: when
    its events hold a [write_register] call at all, they begin with the
    three float writes of x, y and z to the three target registers, each
    of which returned. *)
Theorem move_to_xyz_starts_only_after_three_writes (x y z : pyval) (h : list event) :
  register_writes (events (move_to_xyz w self x y z h)) <> [] ->
  exists ax ay az px py pz rest,
    py_getitem (registers (config self)) (PyStr "target_x") = Ok ax /\
    py_getitem (registers (config self)) (PyStr "target_y") = Ok ay /\
    py_getitem (registers (config self)) (PyStr "target_z") = Ok az /\
    encodeFloat32 x = Ok px /\ encodeFloat32 y = Ok py /\ encodeFloat32 z = Ok pz /\
    on_write_registers w h ax px u = Ok tt /\
    on_write_registers w (h ++ [EvWriteRegisters ax px u]) ay py u = Ok tt /\
    on_write_registers w (h ++ [EvWriteRegisters ax px u; EvWriteRegisters ay py u])
      az pz u = Ok tt /\
    events (move_to_xyz w self x y z h) =
      EvWriteRegisters ax px u :: EvWriteRegisters ay py u
      :: EvWriteRegisters az pz u :: rest.
Proof.
  subst u. unfold move_to_xyz, _write_float, register.
  destruct (py_getitem (registers (config self)) (PyStr "target_x")) as [ax | e] eqn:Eax;
    run_with_hyps; [| done].
  destruct (encodeFloat32 x) as [px | e] eqn:Epx; run_with_hyps; [| done].
  destruct (on_write_registers w h ax px (unit_id (config self))) as [[] | e] eqn:Ewx;
    run_with_hyps; [| done].
  destruct (py_getitem (registers (config self)) (PyStr "target_y")) as [ay | e] eqn:Eay;
    run_with_hyps; [| done].
  destruct (encodeFloat32 y) as [py | e] eqn:Epy; run_with_hyps; [| done].
  destruct (on_write_registers w (h ++ [EvWriteRegisters ax px (unit_id (config self))])
              ay py (unit_id (config self))) as [[] | e] eqn:Ewy;
    run_with_hyps; [| done].
  destruct (py_getitem (registers (config self)) (PyStr "target_z")) as [az | e] eqn:Eaz;
    run_with_hyps; [| done].
  destruct (encodeFloat32 z) as [pz | e] eqn:Epz; run_with_hyps; [| done].
  rewrite <- app_assoc in *. simpl app in *.
  destruct (on_write_registers w
              (h ++ [EvWriteRegisters ax px (unit_id (config self));
                     EvWriteRegisters ay py (unit_id (config self))])
              az pz (unit_id (config self))) as [[] | e] eqn:Ewz;
    run_with_hyps; [| done].
  intros _. eexists ax, ay, az, px, py, pz, _. repeat split; try done.
Qed.

End Homing.

Lemma go_home_needs_three_coordinates_witness :
  go_home (calm_world PyNone) (client_with_home (PyList [PyInt 300; PyInt 0])) [] =
    (Raised IndexError, []).
Proof.
  exact (proj2 (go_home_needs_three_coordinates (calm_world PyNone)
                  (client_with_home (PyList [PyInt 300; PyInt 0])) [])
               [PyInt 300; PyInt 0] eq_refl ltac:(simpl; lia)).
Defined.

Lemma go_home_ignores_extra_coordinates_witness :
  result (go_home (calm_world PyNone)
            (client_with_home (PyList [PyInt 300; PyInt 0; PyInt 400; PyInt 90])) []) =
  result (move_to_xyz (calm_world PyNone)
            (client_with_home (PyList [PyInt 300; PyInt 0; PyInt 400; PyInt 90]))
            (PyInt 300) (PyInt 0) (PyInt 400) []).
Proof.
  exact (proj2 (go_home_ignores_extra_coordinates (calm_world PyNone)
                  (client_with_home (PyList [PyInt 300; PyInt 0; PyInt 400; PyInt 90]))
                  (PyInt 300) (PyInt 0) (PyInt 400) [PyInt 90] [] eq_refl)).
Defined.

Lemma move_to_xyz_starts_only_after_three_writes_witness :
  exists ax ay az px py pz rest,
    events (move_to_xyz (calm_world PyNone) sample_client
              (PyInt 300) (PyInt 0) (PyInt 400) []) =
      EvWriteRegisters ax px (PyInt 1) :: EvWriteRegisters ay py (PyInt 1)
      :: EvWriteRegisters az pz (PyInt 1) :: rest.
Proof.
  destruct (move_to_xyz_starts_only_after_three_writes (calm_world PyNone) sample_client
              (PyInt 300) (PyInt 0) (PyInt 400) [] ltac:(discriminate))
    as (ax & ay & az & px & py & pz & rest & _ & _ & _ & _ & _ & _ & _ & _ & _ & H).
  exists ax, ay, az, px, py, pz, rest. exact H.
Defined.

(** ** Construction *)

Section Construction.

Variable w : World.

Lemma load_config_events (path : string) (h : list event) :
  events (_load_config w path h) = [EvOpen path].
Proof. unfold _load_config. run_all; reflexivity. Qed.

Lemma init_after_failed_load (path : string) (h : list event) (e : exn) :
  result (_load_config w path h) = Raised e ->
  __init__ w path h = (Raised e, [EvOpen path]).
Proof.
  intros Hload. apply run_eq; unfold __init__.
  - by rewrite result_bind, Hload.
  - by rewrite events_bind, Hload, load_config_events.
Qed.

(** X13. Whatever makes loading the configuration fail (the file cannot be
    opened or parsed, a section or a connection parameter is missing), the
    constructor raises that same exception after opening the file only: no
    connection is attempted. *)
Theorem construction_stops_at_config_failure (path : string) (h : list event)
    (e : exn) :
  result (_load_config w path h) = Raised e ->
  __init__ w path h = (Raised e, [EvOpen path]) /\
  transport_calls (events (__init__ w path h)) = [].
Proof.
  intros Hload. rewrite (init_after_failed_load path h e Hload). by split.
Qed.

(** X14. An empty configuration file (a document that is None, empty or
    otherwise false) is read as an empty mapping: the constructor raises
    KeyError('rcs') and attempts no connection. *)
Theorem empty_config_raises_KeyError (path : string) (h : list event) (data : pyval) :
  on_open_yaml w h path = Ok data ->
  py_truthy data = false ->
  __init__ w path h = (Raised (KeyError (PyStr "rcs")), [EvOpen path]).
Proof.
  intros Hopen Hfalse. apply init_after_failed_load.
  unfold _load_config. run_with_hyps. unfold py_or. rewrite Hfalse.
  run_with_hyps. reflexivity.
Qed.

(** X15. The constructor needs all three sections, asked for in the order
    rcs, registers, calibration: on a mapping document it raises KeyError
    for the first one that is missing, calibration included although only
    [go_home] and [calibrate_base] use it, and attempts no connection. *)
Theorem construction_requires_every_section (path : string) (h : list event)
    (d rcs : gmap string pyval) (hostv portv timeoutv unitv : pyval) :
  on_open_yaml w h path = Ok (PyDict d) ->
  (d !! "rcs"%string = None ->
   __init__ w path h = (Raised (KeyError (PyStr "rcs")), [EvOpen path])) /\
  (d !! "rcs"%string = Some (PyDict rcs) ->
   rcs !! "host"%string = Some hostv ->
   rcs !! "port"%string = Some portv ->
   rcs !! "timeout"%string = Some timeoutv ->
   rcs !! "unit_id"%string = Some unitv ->
   (d !! "registers"%string = None ->
    __init__ w path h = (Raised (KeyError (PyStr "registers")), [EvOpen path])) /\
   (forall regs, d !! "registers"%string = Some regs ->
                 d !! "calibration"%string = None ->
    __init__ w path h = (Raised (KeyError (PyStr "calibration")), [EvOpen path]))).
Proof.
  intros Hopen. split.
  - intros Hmiss. pose proof (getitem_dict_missing _ _ Hmiss) as G.
    apply init_after_failed_load. unfold _load_config.
    run_with_hyps. rewrite py_or_dict. run_with_hyps. reflexivity.
  - intros Hrcs Hhost Hport Htimeout Hunit.
    pose proof (getitem_dict _ _ _ Hrcs) as Grcs.
    pose proof (getitem_dict _ _ _ Hhost) as Ghost.
    pose proof (getitem_dict _ _ _ Hport) as Gport.
    pose proof (getitem_dict _ _ _ Htimeout) as Gtimeout.
    pose proof (getitem_dict _ _ _ Hunit) as Gunit.
    split.
    + intros Hmiss. pose proof (getitem_dict_missing _ _ Hmiss) as G.
      apply init_after_failed_load. unfold _load_config.
      run_with_hyps. rewrite py_or_dict. run_with_hyps. reflexivity.
    + intros regs Hregs Hmiss.
      pose proof (getitem_dict _ _ _ Hregs) as Gregs.
      pose proof (getitem_dict_missing _ _ Hmiss) as G.
      apply init_after_failed_load. unfold _load_config.
      run_with_hyps. rewrite py_or_dict. run_with_hyps. reflexivity.
Qed.

(** X16. When [connect()] returns False the constructor raises
    ConnectionError, whose message names the configured host and port,
    right after the connection attempt: nothing is logged and no client is
    returned. *)
Theorem refused_connection_raises_ConnectionError (path : string) (h : list event)
    (cfg : RCSConfig) :
  _load_config w path h = (Ok cfg, [EvOpen path]) ->
  let tcp := {| tcp_host := host cfg; tcp_port := port cfg;
                tcp_timeout := timeout cfg; tcp_retries := 3;
                tcp_retry_on_empty := true |} in
  let msg := [FLit "Failed to connect to RCS: "; FVal (host cfg); FLit ":";
              FVal (port cfg)] in
  on_connect w (h ++ [EvOpen path]) tcp = Ok false ->
  __init__ w path h = (Raised (ConnectionError msg), [EvOpen path; EvConnect tcp]) /\
  (forall name number, host cfg = PyStr name -> port cfg = PyInt number ->
     render msg = Some ("Failed to connect to RCS: " +:+ name +:+ ":" +:+ pretty number)).
Proof.
  intros Hload tcp msg Hc. subst tcp msg. split.
  - apply run_eq; unfold __init__.
    + rewrite result_bind, Hload. cbn [result events fst snd].
      unfold_client. repeat (run_with_hyps; cbn [client config negb]). reflexivity.
    + rewrite events_bind, Hload. cbn [result events fst snd app].
      unfold_client. repeat (run_with_hyps; cbn [client config negb]). reflexivity.
  - intros name number -> ->. unfold render, py_str, fmap, option_fmap, option_map.
    by rewrite append_empty.
Qed.

End Construction.

Lemma construction_stops_at_config_failure_witness :
  __init__ (calm_world (PyList [])) "config/config.yaml" [] =
    (Raised (KeyError (PyStr "rcs")), [EvOpen "config/config.yaml"]) /\
  transport_calls (events (__init__ (calm_world (PyList [])) "config/config.yaml" [])) = [].
Proof.
  exact (construction_stops_at_config_failure (calm_world (PyList []))
           "config/config.yaml" [] (KeyError (PyStr "rcs")) eq_refl).
Defined.

Lemma empty_config_raises_KeyError_witness :
  __init__ (calm_world PyNone) "config/config.yaml" [] =
    (Raised (KeyError (PyStr "rcs")), [EvOpen "config/config.yaml"]).
Proof.
  exact (empty_config_raises_KeyError (calm_world PyNone) "config/config.yaml" []
           PyNone eq_refl eq_refl).
Defined.

Lemma construction_requires_every_section_witness :
  __init__ (calm_world (PyDict {[ "rcs"%string := PyDict sample_rcs;
                                  "registers"%string := PyDict sample_registers ]}))
           "config/config.yaml" [] =
    (Raised (KeyError (PyStr "calibration")), [EvOpen "config/config.yaml"]).
Proof.
  exact (proj2 (proj2 (construction_requires_every_section
                  (calm_world (PyDict {[ "rcs"%string := PyDict sample_rcs;
                                         "registers"%string := PyDict sample_registers ]}))
                  "config/config.yaml" []
                  {[ "rcs"%string := PyDict sample_rcs;
                     "registers"%string := PyDict sample_registers ]}
                  sample_rcs (PyStr "192.168.0.10") (PyInt 502) (PyInt 3) (PyInt 1)
                  eq_refl)
                  eq_refl eq_refl eq_refl eq_refl eq_refl)
               (PyDict sample_registers) eq_refl eq_refl).
Defined.

Lemma refused_connection_raises_ConnectionError_witness :
  __init__ world_unreachable "config/config.yaml" [] =
    (Raised (ConnectionError [FLit "Failed to connect to RCS: ";
                              FVal (PyStr "192.168.0.10"); FLit ":"; FVal (PyInt 502)]),
     [EvOpen "config/config.yaml"; EvConnect (client sample_client)]) /\
  render [FLit "Failed to connect to RCS: "; FVal (PyStr "192.168.0.10"); FLit ":";
          FVal (PyInt 502)] = Some "Failed to connect to RCS: 192.168.0.10:502"%string.
Proof.
  pose proof (refused_connection_raises_ConnectionError world_unreachable
                "config/config.yaml" [] (config sample_client) eq_refl eq_refl)
    as [Hrun Hmsg].
  split; [exact Hrun | exact (Hmsg "192.168.0.10"%string 502 eq_refl eq_refl)].
Defined.

(** ** The runner, [main] *)

Lemma events_ret_bind {A B} (a : A) (f : A -> M B) (h : list event) :
  events ((mret a ≫= f) h) = events (f a h).
Proof. exact (events_lift_bind (Ok a) f h). Qed.

Lemma result_ret_bind {A B} (a : A) (f : A -> M B) (h : list event) :
  result ((mret a ≫= f) h) = result (f a h).
Proof. exact (result_lift_bind (Ok a) f h). Qed.

#[local] Hint Rewrite @events_ret_bind @result_ret_bind : run.

Section Runner.

Variable w : World.

Lemma events_try_finally {A} (body : M A) (final : M unit) (h : list event) :
  events (try_finally body final h) =
  events (body h) ++ events (final (h ++ events (body h))).
Proof.
  unfold try_finally, events. destruct (body h) as [r out]. simpl.
  by destruct (final (h ++ out)) as [[[] | e] out'].
Qed.

Lemma result_try_finally {A} (body : M A) (final : M unit) (h : list event) :
  result (try_finally body final h) =
  match result (final (h ++ events (body h))) with
  | Ok _ => result (body h)
  | Raised e => Raised e
  end.
Proof.
  unfold try_finally, events, result. destruct (body h) as [r out]. simpl.
  by destruct (final (h ++ out)) as [[[] | e] out'].
Qed.

Lemma try_except_caught {A} (body : M A) (handler : exn -> M A) (h : list event)
    (e : exn) :
  result (body h) = Raised e ->
  is_Exception e = true ->
  events (try_except body handler h) =
    events (body h) ++ events (handler e (h ++ events (body h))) /\
  result (try_except body handler h) = result (handler e (h ++ events (body h))).
Proof.
  unfold try_except, events, result. destruct (body h) as [r out]. simpl.
  intros -> ->. by destruct (handler e (h ++ out)).
Qed.

Lemma try_except_passed {A} (body : M A) (handler : exn -> M A) (h : list event)
    (a : A) :
  result (body h) = Ok a -> try_except body handler h = body h.
Proof.
  unfold try_except, result. destruct (body h) as [r out]. simpl. by intros ->.
Qed.

Lemma try_except_unbound {A} (f : RCSModbusClient -> M A) (handler : exn -> M A)
    (h : list event) :
  events (try_except (local_rcs None ≫= f) handler h) =
    events (handler (UnboundLocalError "rcs") (h ++ [])) /\
  result (try_except (local_rcs None ≫= f) handler h) =
    result (handler (UnboundLocalError "rcs") (h ++ [])).
Proof.
  exact (try_except_caught (local_rcs None ≫= f) handler h
           (UnboundLocalError "rcs") eq_refl eq_refl).
Qed.

(** X17. When the constructor raises an Exception, [main] logs it, goes on
    without a client, logs the UnboundLocalError of its first use of [rcs],
    and raises UnboundLocalError from its [finally] block: no register is
    touched, nothing is closed. *)
Theorem main_after_failed_construction (h : list event) (e : exn) :
  result (__init__ w "config/config.yaml" h) = Raised e ->
  is_Exception e = true ->
  main w h =
    (Raised (UnboundLocalError "rcs"),
     events (__init__ w "config/config.yaml" h)
     ++ [EvLog ERROR [FLit "ModBus client error: "; FExn e];
         EvLog ERROR [FLit "Runtime error: "; FExn (UnboundLocalError "rcs")]]).
Proof.
  intros Hinit Hexn. unfold main.
  set (construct := __init__ w "config/config.yaml" ≫= λ self, mret (Some self)).
  assert (Hres : result (construct h) = Raised e)
    by (unfold construct; by rewrite result_bind, Hinit).
  assert (Hev : events (construct h) = events (__init__ w "config/config.yaml" h))
    by (unfold construct; rewrite events_bind, Hinit; apply app_nil_r).
  destruct (try_except_caught construct
              (λ e, error [FLit "ModBus client error: "; FExn e] ≫= λ _, mret None)
              h e Hres Hexn) as [Hev1 Hres1].
  unfold error in *. autorewrite with run in Hev1, Hres1. rewrite Hev in Hev1.
  apply run_eq.
  - rewrite result_bind, Hres1, result_try_finally. reflexivity.
  - rewrite events_bind, Hres1, Hev1, events_try_finally.
    rewrite (proj1 (try_except_unbound _ _ _)). simpl. by rewrite <- app_assoc.
Qed.

Section EmitsOnly.

Variable p : event -> bool.

Lemma emits_only_bind {A B} (m : M A) (f : A -> M B) :
  emits_only p m -> (forall a, emits_only p (f a)) -> emits_only p (m ≫= f).
Proof.
  intros Hm Hf h. rewrite events_bind. apply Forall_app. split; [apply Hm |].
  destruct (result (m h)); [apply Hf | constructor].
Qed.

Lemma emits_only_lift {A} (o : outcome A) : emits_only p (lift o).
Proof. intros h. constructor. Qed.

Lemma emits_only_ret {A} (a : A) : emits_only p (mret a).
Proof. intros h. constructor. Qed.

Lemma emits_only_raise {A} (e : exn) : emits_only p (raise (A := A) e).
Proof. intros h. constructor. Qed.

Lemma emits_only_perform {A} (ev : event) (answer : list event -> outcome A) :
  p ev = true -> emits_only p (perform ev answer).
Proof. intros H h. by repeat constructor. Qed.

Lemma emits_only_try_except {A} (body : M A) (handler : exn -> M A) :
  emits_only p body -> (forall e, emits_only p (handler e)) ->
  emits_only p (try_except body handler).
Proof.
  intros Hb Hh h. specialize (Hb h). unfold try_except, events in *.
  destruct (body h) as [[a | e] out]; simpl in *; [done |].
  destruct (is_Exception e); [| done].
  specialize (Hh e (h ++ out)). unfold events in Hh.
  destruct (handler e (h ++ out)) as [r out']. simpl in *.
  apply Forall_app. by split.
Qed.

End EmitsOnly.

Ltac emits :=
  repeat first
    [ apply emits_only_lift | apply emits_only_ret | apply emits_only_raise
    | apply emits_only_perform; reflexivity
    | apply emits_only_try_except; [| intros ?]
    | apply emits_only_bind; [| intros ?]
    | match goal with
      | |- emits_only _ (if ?b then _ else _) => destruct b
      end ].

Lemma init_never_closes (path : string) : emits_only not_close (__init__ w path).
Proof. unfold __init__, _load_config. unfold_client. cbv zeta. emits. Qed.

Lemma runner_body_never_closes (self : RCSModbusClient) :
  emits_only not_close
    (try_except
       (self ← local_rcs (Some self); reset_errors w self;;
        self ← local_rcs (Some self); enable_drives w self;;
        self ← local_rcs (Some self); go_home w self;;
        sleep w (PyInt 2);;
        perform (EvYOLO "yolov8n.pt") (λ h, on_yolo w h "yolov8n.pt"))
       (λ e, error [FLit "Runtime error: "; FExn e])).
Proof. unfold local_rcs, go_home, move_to_xyz. unfold_client. emits. Qed.

Lemma constructed (h : list event) (self : RCSModbusClient) :
  result (__init__ w "config/config.yaml" h) = Ok self ->
  let construct := __init__ w "config/config.yaml" ≫= λ self, mret (Some self) in
  let handler := λ e, error [FLit "ModBus client error: "; FExn e] ≫= λ _, mret None in
  result (try_except construct handler h) = Ok (Some self) /\
  events (try_except construct handler h) = events (__init__ w "config/config.yaml" h).
Proof.
  intros Hinit construct handler.
  assert (Hres : result (construct h) = Ok (Some self))
    by (unfold construct; by rewrite result_bind, Hinit).
  rewrite (try_except_passed construct handler h (Some self) Hres).
  split; [exact Hres |].
  unfold construct. rewrite events_bind, Hinit. apply app_nil_r.
Qed.

(** X18. Once the client is constructed, [main] closes the connection
    exactly once, whatever fails in between: its events are events without
    a close call, then the close call, then events that are no transport
    calls. *)
Theorem main_closes_once (h : list event) (self : RCSModbusClient) :
  result (__init__ w "config/config.yaml" h) = Ok self ->
  exists pre post,
    events (main w h) = pre ++ EvClose :: post /\
    Forall (fun ev => not_close ev = true) pre /\
    transport_calls post = [].
Proof.
  intros Hinit. destruct (constructed h self Hinit) as [Hres Hev].
  unfold main. rewrite events_bind, Hres, Hev, events_try_finally.
  set (ei := events (__init__ w "config/config.yaml" h)).
  set (body := try_except _ _).
  set (eb := events (body (h ++ ei))).
  exists (ei ++ eb).
  unfold local_rcs, close, info. autorewrite with run.
  eexists. split; [apply app_assoc |]. split.
  - apply Forall_app. split; [apply init_never_closes | apply runner_body_never_closes].
  - by destruct (on_close w _).
Qed.

(** X19. [main] survives a failed command: when [reset_errors] raises an
    Exception after a successful construction, the drives are not enabled
    and no move is made; the error is logged, the connection is closed
    and, when the close returns, [main] returns normally. *)
Theorem main_survives_failed_reset (h : list event) (self : RCSModbusClient) (e : exn) :
  result (__init__ w "config/config.yaml" h) = Ok self ->
  let ei := events (__init__ w "config/config.yaml" h) in
  let er := events (reset_errors w self (h ++ ei)) in
  let logged := EvLog ERROR [FLit "Runtime error: "; FExn e] in
  result (reset_errors w self (h ++ ei)) = Raised e ->
  is_Exception e = true ->
  on_close w ((h ++ ei) ++ er ++ [logged]) = Ok tt ->
  main w h =
    (Ok tt,
     ei ++ (er ++ [logged])
     ++ [EvClose; EvLog INFO [FLit "Modbus connection closed"]; EvDestroyAllWindows]).
Proof.
  intros Hinit ei er logged Hreset Hexn Hclose.
  destruct (constructed h self Hinit) as [Hres Hev]. fold ei in Hev.
  unfold main.
  apply run_eq; [rewrite result_bind | rewrite events_bind];
    rewrite Hres, Hev; cbv beta iota;
    [rewrite result_try_finally | rewrite events_try_finally].
  all: match goal with
       | |- context [try_except ?body ?handler ?h1] =>
           assert (Hbr : result (body h1) = Raised e)
             by (unfold local_rcs; by rewrite result_ret_bind, result_bind, Hreset);
           assert (Hbe : events (body h1) = er)
             by (unfold local_rcs; rewrite events_ret_bind, events_bind, Hreset;
                 apply app_nil_r);
           destruct (try_except_caught body handler h1 e Hbr Hexn) as [Hte Htr];
           rewrite Hbe in Hte; rewrite ?Hte, ?Htr
       end.
  all: unfold local_rcs, close, info, error; autorewrite with run;
    fold logged; by rewrite Hclose.
Qed.

End Runner.

Lemma main_after_failed_construction_witness :
  main world_unreachable [] =
    (Raised (UnboundLocalError "rcs"),
     events (__init__ world_unreachable "config/config.yaml" [])
     ++ [EvLog ERROR
           [FLit "ModBus client error: ";
            FExn (ConnectionError [FLit "Failed to connect to RCS: ";
                                   FVal (PyStr "192.168.0.10"); FLit ":";
                                   FVal (PyInt 502)])];
         EvLog ERROR [FLit "Runtime error: "; FExn (UnboundLocalError "rcs")]]).
Proof.
  exact (main_after_failed_construction world_unreachable []
           (ConnectionError [FLit "Failed to connect to RCS: ";
                             FVal (PyStr "192.168.0.10"); FLit ":"; FVal (PyInt 502)])
           eq_refl eq_refl).
Defined.

Lemma main_closes_once_witness :
  exists pre post,
    events (main (calm_world (document sample_registers)) []) = pre ++ EvClose :: post /\
    Forall (fun ev => not_close ev = true) pre /\
    transport_calls post = [].
Proof.
  exact (main_closes_once (calm_world (document sample_registers)) [] sample_client
           eq_refl).
Defined.

Lemma main_survives_failed_reset_witness :
  result (main world_failing_after_high []) = Ok tt /\
  register_ops (events (main world_failing_after_high [])) =
    [EvWriteRegister (PyInt 100) (PyInt 1) (PyInt 1)].
Proof.
  pose proof (main_survives_failed_reset world_failing_after_high [] sample_client
                (ModbusException "No response received")
                eq_refl eq_refl eq_refl eq_refl) as H.
  rewrite H. split; reflexivity.
Defined.

(** ** The calibration loop *)

Section CalibrationLoop.

Variable w : World.

Hypothesis operator_answers : forall h prompt, is_ok (on_input w h prompt) = true.

Lemma input_returns (h : list event) (prompt : string) :
  exists s, on_input w h prompt = Ok s.
Proof.
  specialize (operator_answers h prompt).
  destruct (on_input w h prompt); [eauto | discriminate].
Qed.

Lemma calibrate_points_prompts (points : list (pyval * pyval * pyval)) :
  Forall formattable points ->
  forall i h, calibrate_points w i (cone <$> points) h = (Ok tt, cone_prompts i points).
Proof.
  induction 1 as [| [[x y] z] points (Fx & Fy & Fz) _ IH]; intros i h; [reflexivity |].
  cbn [fmap list_fmap calibrate_points cone cone_prompts].
  assert (Hu : py_unpack3 (PyList [x; y; z]) = Ok (x, y, z)) by reflexivity.
  unfold input, info.
  apply run_eq; run_with_hyps.
  - destruct (input_returns (h ++ [EvLog INFO
        [FLit "Move TCP to cone "; FVal (PyInt (i + 1)); FLit " at (";
         FFixed 3 x; FLit ", "; FFixed 3 y; FLit ", "; FFixed 3 z;
         FLit ") and press Enter"]]) "Press Enter when in position...") as [s Hs].
    rewrite Hs. by rewrite IH.
  - destruct (input_returns (h ++ [EvLog INFO
        [FLit "Move TCP to cone "; FVal (PyInt (i + 1)); FLit " at (";
         FFixed 3 x; FLit ", "; FFixed 3 y; FLit ", "; FFixed 3 z;
         FLit ") and press Enter"]]) "Press Enter when in position...") as [s Hs].
    rewrite Hs. by rewrite IH.
Qed.

Lemma calibrate_points_stop (good : list (pyval * pyval * pyval)) (bad : pyval)
    (rest : list pyval) (e : exn) :
  Forall formattable good ->
  py_unpack3 bad = Raised e ->
  forall i h,
    calibrate_points w i ((cone <$> good) ++ bad :: rest) h =
      (Raised e, cone_prompts i good).
Proof.
  intros Hgood Hbad.
  induction Hgood as [| [[x y] z] good (Fx & Fy & Fz) _ IH]; intros i h.
  - cbn [fmap list_fmap app calibrate_points cone_prompts].
    apply run_eq; run_with_hyps; reflexivity.
  - cbn [fmap list_fmap app calibrate_points cone cone_prompts].
    assert (Hu : py_unpack3 (PyList [x; y; z]) = Ok (x, y, z)) by reflexivity.
    unfold input, info.
    apply run_eq; run_with_hyps.
    + destruct (input_returns (h ++ [EvLog INFO
          [FLit "Move TCP to cone "; FVal (PyInt (i + 1)); FLit " at (";
           FFixed 3 x; FLit ", "; FFixed 3 y; FLit ", "; FFixed 3 z;
           FLit ") and press Enter"]]) "Press Enter when in position...") as [s Hs].
      rewrite Hs. by rewrite IH.
    + destruct (input_returns (h ++ [EvLog INFO
          [FLit "Move TCP to cone "; FVal (PyInt (i + 1)); FLit " at (";
           FFixed 3 x; FLit ", "; FFixed 3 y; FLit ", "; FFixed 3 z;
           FLit ") and press Enter"]]) "Press Enter when in position...") as [s Hs].
      rewrite Hs. by rewrite IH.
Qed.

Lemma cone_prompts_inputs (points : list (pyval * pyval * pyval)) :
  forall i, length (List.filter is_input (cone_prompts i points)) = length points.
Proof.
  induction points as [| [[x y] z] points IH]; intros i; [reflexivity |].
  simpl. by rewrite IH.
Qed.

End CalibrationLoop.

(** X20. With cone_positions a list of well-formed positions (three
    coordinates each, all numbers) and an operator who answers every
    prompt, [calibrate_base] returns after: the opening line, then for each
    position in order its numbered line (counting from 1) and one prompt,
    then the closing line.  The operator is prompted once per position. *)
Theorem calibrate_base_prompts_each_cone (w : World) (self : RCSModbusClient)
    (h : list event) (points : list (pyval * pyval * pyval)) :
  (forall h' prompt, is_ok (on_input w h' prompt) = true) ->
  py_getitem (calibration (config self)) (PyStr "cone_positions")
    = Ok (PyList (cone <$> points)) ->
  Forall formattable points ->
  calibrate_base w self h =
    (Ok tt,
     EvLog INFO [FLit "Starting Base frame calibration (3-point method)..."]
     :: cone_prompts 0 points
     ++ [EvLog INFO [FLit "Calibration points recorded. Complete calibration in RCS HMI."]]) /\
  length (List.filter is_input (events (calibrate_base w self h))) = length points.
Proof.
  intros Hop Hcones Hpoints.
  assert (Hrun : calibrate_base w self h =
    (Ok tt,
     EvLog INFO [FLit "Starting Base frame calibration (3-point method)..."]
     :: cone_prompts 0 points
     ++ [EvLog INFO [FLit "Calibration points recorded. Complete calibration in RCS HMI."]])).
  { apply run_eq; unfold calibrate_base, info; run_with_hyps; cbn [py_iter];
      run_with_hyps.
    - rewrite result_bind, (calibrate_points_prompts w Hop points Hpoints).
      reflexivity.
    - rewrite events_bind, (calibrate_points_prompts w Hop points Hpoints).
      reflexivity. }
  split; [exact Hrun |]. rewrite Hrun. cbn [events snd List.filter is_input].
  rewrite List.filter_app, length_app, (cone_prompts_inputs points 0). simpl. lia.
Qed.

(** X21. A position that cannot be unpacked into three coordinates stops
    the calibration there: the positions before it have been prompted for,
    the exception of the unpacking is raised, and neither a later position
    nor the closing line follows. *)
Theorem calibrate_base_stops_at_malformed_point (w : World) (self : RCSModbusClient)
    (h : list event) (good : list (pyval * pyval * pyval)) (bad : pyval)
    (rest : list pyval) (e : exn) :
  (forall h' prompt, is_ok (on_input w h' prompt) = true) ->
  py_getitem (calibration (config self)) (PyStr "cone_positions")
    = Ok (PyList ((cone <$> good) ++ bad :: rest)) ->
  Forall formattable good ->
  py_unpack3 bad = Raised e ->
  calibrate_base w self h =
    (Raised e,
     EvLog INFO [FLit "Starting Base frame calibration (3-point method)..."]
     :: cone_prompts 0 good).
Proof.
  intros Hop Hcones Hgood Hbad.
  apply run_eq; unfold calibrate_base, info; run_with_hyps; cbn [py_iter];
    run_with_hyps.
  - rewrite result_bind, (calibrate_points_stop w Hop good bad rest e Hgood Hbad).
    reflexivity.
  - rewrite events_bind, (calibrate_points_stop w Hop good bad rest e Hgood Hbad).
    cbn [result events fst snd]. by rewrite app_nil_r.
Qed.

Lemma calibrate_base_prompts_each_cone_witness :
  length (List.filter is_input
            (events (calibrate_base (calm_world PyNone) sample_client []))) = 2%nat.
Proof.
  refine (proj2 (calibrate_base_prompts_each_cone (calm_world PyNone) sample_client []
                   [(PyInt 100, PyInt 0, PyInt 50); (PyInt 0, PyInt 100, PyInt 50)]
                   (fun _ _ => eq_refl) eq_refl _)).
  repeat constructor.
Defined.

Lemma calibrate_base_stops_at_malformed_point_witness :
  calibrate_base (calm_world PyNone)
    (client_with_cones (PyList [PyList [PyInt 100; PyInt 0; PyInt 50];
                                PyList [PyInt 0; PyInt 100]])) [] =
    (Raised (ValueError [FLit "not enough values to unpack (expected 3, got ";
                         FVal (PyInt 2); FLit ")"]),
     EvLog INFO [FLit "Starting Base frame calibration (3-point method)..."]
     :: cone_prompts 0 [(PyInt 100, PyInt 0, PyInt 50)]).
Proof.
  refine (calibrate_base_stops_at_malformed_point (calm_world PyNone)
            (client_with_cones (PyList [PyList [PyInt 100; PyInt 0; PyInt 50];
                                        PyList [PyInt 0; PyInt 100]])) []
            [(PyInt 100, PyInt 0, PyInt 50)] (PyList [PyInt 0; PyInt 100]) []
            _ (fun _ _ => eq_refl) eq_refl _ eq_refl).
  repeat constructor.
Defined.
